(** * YLearn: [ylearn/effect_interpreter/policy_interpreter.py]

    A shallow embedding of the class [PolicyInterpreter] and of the
    Python run-time notions its three methods rely on: dynamically typed
    values, objects as attribute dictionaries living in a heap,
    exceptions that abort a call but keep the mutations performed so far,
    and calls to the collaborators the module imports ([convert2array],
    [PolicyTree], the estimator handed to [fit], numpy's [reshape]). *)

From Stdlib Require Import ZArith List.
From Stdlib Require Import Floats.SpecFloat.
From stdpp Require Import gmap strings list fin_maps.

Open Scope string_scope.
Open Scope list_scope.
Open Scope Z_scope.

(** ** Python values *)

(** Object identities. *)
Abbreviation loc := positive.

(** A numpy array: its [shape] and its elements in row-major order. *)
Record ndarray := NdArray { shape : list Z; buffer : list spec_float }.

(** The Python values that flow through the module.  [PyRef] is a
    reference to a heap object (an instance or a policy tree). *)
#[warnings="-register-all"] Inductive pyval :=
| PyNone
| PyNotImplemented
| PyBool (b : bool)
| PyInt (z : Z)
| PyFloat (f : spec_float)
| PyStr (s : string)
| PyList (l : list pyval)
| PyArr (a : ndarray)
| PyRef (l : loc).

(** Keyword arguments written at a call site, in source order. *)
Abbreviation kwlist := (list (string * pyval)).

(** [x is None] *)
Definition is_None (x : pyval) : bool :=
  match x with PyNone => true | _ => false end.

(** ** Exceptions *)

Inductive exn_class :=
| AssertionError
| AttributeError
| TypeError
| ValueError
| KeyError
| NotImplementedError.

(** An exception: its class and its message (abridged where the run
    time formats values into it). *)
Record exn := Raise { exn_type : exn_class; exn_msg : string }.

(** The outcome of a call: an exception or a value. *)
Definition res (A : Type) : Type := exn + A.

(** ** numpy *)

Definition ndim (a : ndarray) : Z := Z.of_nat (length (shape a)).

Definition prodZ (l : list Z) : Z := fold_right Z.mul 1 l.

Definition size (a : ndarray) : Z := prodZ (shape a).

(** [a.reshape(d1, ..., dk)].  numpy takes a negative extent (in
    practice [-1]) for the one it has to infer from the number of
    elements: there may be one at most, the others must multiply to a
    non-zero divisor of the size, and without one they must multiply to
    the size.  The receiver is left as it is; the reshaped array is the
    value of the call. *)
Definition reshape (a : ndarray) (newshape : list Z) : res ndarray :=
  let unknown := List.filter (λ d, d <? 0) newshape in
  let known := prodZ (List.filter (λ d, 0 <=? d) newshape) in
  match unknown with
  | [] =>
      if known =? size a
      then inr {| shape := newshape; buffer := buffer a |}
      else inl (Raise ValueError "cannot reshape array")
  | [_] =>
      if (known =? 0) || negb (size a mod known =? 0)
      then inl (Raise ValueError "cannot reshape array")
      else inr {| shape := map (λ d, if d <? 0 then size a / known else d)
                               newshape;
                  buffer := buffer a |}
  | _ => inl (Raise ValueError "can only specify one unknown dimension")
  end.

(** ** Collaborators

    [fit] imports [convert2array] from [ylearn.utils._common] and
    [PolicyTree] from [ylearn.policy.policy_model]; neither is part of the
    module.  They are taken as parameters: any table type, any tree
    type, any conversion, any constructor and any tree fitting routine,
    each free to raise. *)
Class Collaborators := {
  (** [pandas.DataFrame] *)
  DataFrame : Type;
  (** the private state of a [PolicyTree] object *)
  Tree : Type;
  (** [convert2array(data, covariate, outcome)], unpacked into two values *)
  convert2array : DataFrame → pyval → pyval → res (pyval * pyval);
  (** the constructor call [PolicyTree(k1=x1, ..., kn=xn)] *)
  PolicyTree : kwlist → res Tree;
  (** [tree.fit(data=, covariate=, effect_array=)]: the exception, if any,
      and the tree as the call leaves it *)
  PolicyTree_fit : Tree → DataFrame → pyval → pyval → res unit * Tree;
}.

Section PolicyInterpreter.
Context `{!Collaborators}.

(** The estimator handed to [fit]: the three attributes [fit] reads and
    its [estimate] method, called with [data], [quantity] and the
    remaining keyword arguments. *)
Record estimator := Estimator {
  covariate : pyval;
  outcome : pyval;
  _is_fitted : bool;
  estimate : DataFrame → pyval → gmap string pyval → res pyval;
}.

(** ** Heap, trace and the monad of method bodies *)

(** A heap cell: an instance with its attribute dictionary, or a policy
    tree. *)
Inductive cell :=
| Instance (attrs : gmap string pyval)
| TreeObj (t : Tree).

(** Calls that leave the module, as they are issued. *)
Inductive event :=
| Call_convert2array (data : DataFrame) (cov out : pyval)
| Call_estimate (data : DataFrame) (quantity : pyval) (kwargs : gmap string pyval)
| Call_PolicyTree (kw : kwlist)
| Call_tree_fit (tree : loc) (data : DataFrame) (cov effect_array : pyval).

Record world := World { heap : gmap loc cell; trace : list event }.

(** A method body: from a world to an outcome and the world it leaves.
    An exception keeps the world reached when it was raised. *)
Definition M (A : Type) : Type := world → res A * world.

Definition ret {A} (a : A) : M A := λ w, (inr a, w).

Definition raise {A} (c : exn_class) (msg : string) : M A :=
  λ w, (inl (Raise c msg), w).

Definition bind {A B} (m : M A) (k : A → M B) : M B :=
  λ w, match m w with
       | (inl e, w') => (inl e, w')
       | (inr a, w') => k a w'
       end.

#[global] Instance M_bind : MBind M := λ A B k m, bind m k.

Definition lift {A} (r : res A) : M A := λ w, (r, w).

Definition emit (e : event) : M unit :=
  λ w, (inr tt, {| heap := heap w; trace := trace w ++ [e] |}).

(** [assert cond, msg], as the interpreter runs it without [-O]. *)
Definition assert_ (cond : bool) (msg : string) : M unit :=
  if cond then ret tt else raise AssertionError msg.

(** [o.name] *)
Definition getattr (o : loc) (name : string) : M pyval :=
  λ w, match heap w !! o with
       | Some (Instance d) =>
           match d !! name with
           | Some x => (inr x, w)
           | None => (inl (Raise AttributeError name), w)
           end
       | _ => (inl (Raise AttributeError name), w)
       end.

(** [o.name = x] *)
Definition setattr (o : loc) (name : string) (x : pyval) : M unit :=
  λ w, match heap w !! o with
       | Some (Instance d) =>
           (inr tt, {| heap := <[o := Instance (<[name := x]> d)]> (heap w);
                       trace := trace w |})
       | _ => (inl (Raise AttributeError name), w)
       end.

(** A new object at an unused identity. *)
Definition alloc (c : cell) : M loc :=
  λ w, let l := fresh (dom (heap w)) in
       (inr l, {| heap := <[l := c]> (heap w); trace := trace w |}).

(** ** Run-time operations the methods use *)

(** [bool(x)], as [assert x] computes it.  An array has a truth value
    only when it holds a single element. *)
Definition nonzero (f : spec_float) : bool :=
  match f with S754_zero _ => false | _ => true end.

Definition truthy (x : pyval) : M bool :=
  match x with
  | PyNone => ret false
  | PyNotImplemented => ret true
  | PyBool b => ret b
  | PyInt z => ret (negb (z =? 0))
  | PyFloat f => ret (nonzero f)
  | PyStr s => ret (negb (String.eqb s ""))
  | PyList l => ret (negb (bool_decide (length l = 0%nat)))
  | PyArr a =>
      match buffer a with
      | [f] => ret (nonzero f)
      | _ => raise ValueError "The truth value of an array is ambiguous"
      end
  | PyRef _ => ret true
  end.

Definition type_name (x : pyval) : string :=
  match x with
  | PyNone => "NoneType"
  | PyNotImplemented => "NotImplementedType"
  | PyBool _ => "bool"
  | PyInt _ => "int"
  | PyFloat _ => "float"
  | PyStr _ => "str"
  | PyList _ => "list"
  | PyArr _ => "numpy.ndarray"
  | PyRef _ => "object"
  end.

(** [f()] for a value [f] that is not callable, as is every value at
    hand: no function or class is among them, and [interpret], the one
    caller, applies it to the constant [NotImplemented]. *)
Definition py_call (f : pyval) : M pyval :=
  raise TypeError ("'" +:+ type_name f +:+ "' object is not callable").

(** [raise x] for a value [x] already computed: no value at hand is an
    exception instance or class. *)
Definition py_raise {A} (x : pyval) : M A :=
  raise TypeError "exceptions must derive from BaseException".

(** [x.shape] and [x.ndim]: attributes of arrays only. *)
Definition np_shape (x : pyval) : M (list Z) :=
  match x with
  | PyArr a => ret (shape a)
  | _ => raise AttributeError ("'" +:+ type_name x +:+ "' object has no attribute 'shape'")
  end.

Definition np_ndim (x : pyval) : M Z :=
  match x with
  | PyArr a => ret (ndim a)
  | _ => raise AttributeError ("'" +:+ type_name x +:+ "' object has no attribute 'ndim'")
  end.

(** [x.reshape(d1, ..., dk)] *)
Definition np_reshape (x : pyval) (newshape : list Z) : M pyval :=
  match x with
  | PyArr a => r ← lift (reshape a newshape); ret (PyArr r)
  | _ => raise AttributeError ("'" +:+ type_name x +:+ "' object has no attribute 'reshape'")
  end.

(** [a, b = l] *)
Definition unpack2 {A} (l : list A) : M (A * A) :=
  match l with
  | [a; b] => ret (a, b)
  | _ => raise ValueError "wrong number of values to unpack"
  end.

(** ** Calls to the collaborators *)

(** [v, y = convert2array(data, covariate, outcome)] *)
Definition call_convert2array (data : DataFrame) (cov out : pyval)
  : M (pyval * pyval) :=
  emit (Call_convert2array data cov out);;
  lift (convert2array data cov out).

(** [est_model.estimate(data=data, quantity=quantity, **kwargs)]: a key
    of [kwargs] that repeats an explicit keyword is refused before the
    method is entered.  In [fit] the key can only be [quantity]: [data]
    is a parameter of [fit], which Python never collects into
    [kwargs]. *)
Definition call_estimate (est_model : estimator) (data : DataFrame)
    (quantity : pyval) (kwargs : gmap string pyval) : M pyval :=
  if bool_decide (is_Some (kwargs !! "data")) then
    raise TypeError "got multiple values for keyword argument 'data'"
  else if bool_decide (is_Some (kwargs !! "quantity")) then
    raise TypeError "got multiple values for keyword argument 'quantity'"
  else
    emit (Call_estimate data quantity kwargs);;
    lift (estimate est_model data quantity kwargs).

(** [PolicyTree(k1=x1, ..., kn=xn)]: the tree the constructor returns
    becomes a new heap object. *)
Definition call_PolicyTree (kw : kwlist) : M pyval :=
  emit (Call_PolicyTree kw);;
  t ← lift (PolicyTree kw);
  l ← alloc (TreeObj t);
  ret (PyRef l).

(** [tree.fit(data=data, covariate=covariate, effect_array=effect_array)]:
    the tree object is updated in place, also when the call raises. *)
Definition call_tree_fit (tree : pyval) (data : DataFrame)
    (cov effect_array : pyval) : M unit :=
  match tree with
  | PyRef l =>
      λ w, match heap w !! l with
           | Some (TreeObj t) =>
               let '(r, t') := PolicyTree_fit t data cov effect_array in
               (r, {| heap := <[l := TreeObj t']> (heap w);
                      trace := trace w ++ [Call_tree_fit l data cov effect_array] |})
           | _ => (inl (Raise AttributeError "fit"), w)
           end
  | _ => raise AttributeError ("'" +:+ type_name tree +:+ "' object has no attribute 'fit'")
  end.

(** ** class PolicyInterpreter *)

(** The keyword-only parameters of [__init__]. *)
Record init_args := InitArgs {
  criterion : pyval;
  splitter : pyval;
  max_depth : pyval;
  min_samples_split : pyval;
  min_samples_leaf : pyval;
  random_state : pyval;
  max_leaf_nodes : pyval;
  max_features : pyval;
  min_impurity_decrease : pyval;
  ccp_alpha : pyval;
  min_weight_fraction_leaf : pyval;
}.

(** The defaults of the signature. *)
Definition default_args : init_args := {|
  criterion := PyStr "policy_reg";
  splitter := PyStr "best";
  max_depth := PyNone;
  min_samples_split := PyInt 2;
  min_samples_leaf := PyInt 1;
  random_state := PyInt 2022;
  max_leaf_nodes := PyNone;
  max_features := PyNone;
  min_impurity_decrease := PyFloat (S754_zero false);
  ccp_alpha := PyFloat (S754_zero false);
  min_weight_fraction_leaf := PyFloat (S754_zero false);
|}.

Definition __init__ (self : loc) (a : init_args) : M unit :=
  setattr self "_is_fitted" (PyBool false);;
  setattr self "treatment" PyNone;;
  setattr self "outcome" PyNone;;

  setattr self "criterion" (criterion a);;
  setattr self "splitter" (splitter a);;
  setattr self "max_depth" (max_depth a);;
  setattr self "min_samples_split" (min_samples_split a);;
  setattr self "min_samples_leaf" (min_samples_leaf a);;
  setattr self "max_leaf_nodes" (max_leaf_nodes a);;
  setattr self "min_impurity_decrease" (min_impurity_decrease a);;
  setattr self "ccp_alpha" (ccp_alpha a);;
  setattr self "random_state" (random_state a);;
  setattr self "min_weight_fraction_leaf" (min_weight_fraction_leaf a);;
  setattr self "max_features" (max_features a).

(** The expression [PolicyInterpreter(...)]: a new instance with an
    empty attribute dictionary, initialised by [__init__]. *)
Definition PolicyInterpreter (a : init_args) : M loc :=
  self ← alloc (Instance ∅);
  __init__ self a;;
  ret self.

Definition fit (self : loc) (data : DataFrame) (est_model : estimator)
    (kwargs : gmap string pyval) : M loc :=
  let covariate := covariate est_model in
  let outcome := outcome est_model in

  assert_ (negb (is_None covariate))
          "Need covariate to interpret the causal effect.";;
  assert_ (_is_fitted est_model) "";;

  '(v, y) ← call_convert2array data covariate outcome;
  '(n, _y_d) ← (s ← np_shape y; unpack2 s);
  setattr self "v" v;;
  assert_ (_y_d =? 1) "";;

  causal_effect ← call_estimate est_model data PyNone kwargs;
  d ← np_ndim causal_effect;
  (if d =? 3 then
     np_reshape causal_effect [n; -1];; ret tt
   else ret tt : M unit);;

  criterion ← getattr self "criterion";
  splitter ← getattr self "splitter";
  max_depth ← getattr self "max_depth";
  min_samples_split ← getattr self "min_samples_split";
  min_samples_leaf ← getattr self "min_samples_leaf";
  random_state ← getattr self "random_state";
  max_leaf_nodes ← getattr self "max_leaf_nodes";
  max_features ← getattr self "max_features";
  min_impurity_decrease ← getattr self "min_impurity_decrease";
  ccp_alpha ← getattr self "ccp_alpha";
  min_weight_fraction_leaf ← getattr self "min_weight_fraction_leaf";
  tree ← call_PolicyTree [
    ("criterion", criterion);
    ("splitter", splitter);
    ("max_depth", max_depth);
    ("min_samples_split", min_samples_split);
    ("min_samples_leaf", min_samples_leaf);
    ("random_state", random_state);
    ("max_leaf_nodes", max_leaf_nodes);
    ("max_features", max_features);
    ("min_impurity_decrease", min_impurity_decrease);
    ("ccp_alpha", ccp_alpha);
    ("min_weight_fraction_leaf", min_weight_fraction_leaf)
  ];
  setattr self "_tree" tree;;

  tree ← getattr self "_tree";
  call_tree_fit tree data covariate causal_effect;;

  setattr self "_is_fitted" (PyBool true);;

  ret self.

Definition interpret (self : loc) : M pyval :=
  fitted ← getattr self "_is_fitted";
  ok ← truthy fitted;
  assert_ ok "The model is not fitted yet. Please use the fit method first.";;

  x ← py_call PyNotImplemented;
  py_raise x.

(** ** Vocabulary of the statements *)

(** [self] is a live instance whose attribute dictionary is [d]. *)
Definition instance (w : world) (self : loc) (d : gmap string pyval) : Prop :=
  heap w !! self = Some (Instance d).

(** The eleven configuration attributes of [d] hold the values of [a]. *)
Definition configured (d : gmap string pyval) (a : init_args) : Prop :=
  d !! "criterion" = Some (criterion a) ∧
  d !! "splitter" = Some (splitter a) ∧
  d !! "max_depth" = Some (max_depth a) ∧
  d !! "min_samples_split" = Some (min_samples_split a) ∧
  d !! "min_samples_leaf" = Some (min_samples_leaf a) ∧
  d !! "random_state" = Some (random_state a) ∧
  d !! "max_leaf_nodes" = Some (max_leaf_nodes a) ∧
  d !! "max_features" = Some (max_features a) ∧
  d !! "min_impurity_decrease" = Some (min_impurity_decrease a) ∧
  d !! "ccp_alpha" = Some (ccp_alpha a) ∧
  d !! "min_weight_fraction_leaf" = Some (min_weight_fraction_leaf a).

(** The keyword arguments of a tree built from the configuration [a]. *)
Definition tree_kwargs (a : init_args) : kwlist := [
  ("criterion", criterion a);
  ("splitter", splitter a);
  ("max_depth", max_depth a);
  ("min_samples_split", min_samples_split a);
  ("min_samples_leaf", min_samples_leaf a);
  ("random_state", random_state a);
  ("max_leaf_nodes", max_leaf_nodes a);
  ("max_features", max_features a);
  ("min_impurity_decrease", min_impurity_decrease a);
  ("ccp_alpha", ccp_alpha a);
  ("min_weight_fraction_leaf", min_weight_fraction_leaf a)
].

(** [w] with more calls recorded; [w] with new attributes for [o]. *)
Definition log (w : world) (evs : list event) : world :=
  {| heap := heap w; trace := trace w ++ evs |}.

Definition store (w : world) (o : loc) (d : gmap string pyval) : world :=
  {| heap := <[o := Instance d]> (heap w); trace := trace w |}.

(** The discarded statement [causal_effect.reshape(n, -1)] of [fit]: it
    runs for arrays of three dimensions only, and all that is left of
    it is the exception it may raise. *)
Definition flatten_attempt (ce : ndarray) (n : Z) : res unit :=
  if ndim ce =? 3 then
    match reshape ce [n; -1] with inl e => inl e | inr _ => inr tt end
  else inr tt.

(** What [fit] does on an instance [self] with attributes [d] configured
    by [a], outcome by outcome ([fit_summary_correct]). *)
Definition fit_summary (self : loc) (d : gmap string pyval) (a : init_args)
    (data : DataFrame) (est_model : estimator) (kwargs : gmap string pyval)
    (w : world) : res loc * world :=
  let cov := covariate est_model in
  let out := outcome est_model in
  let l := fresh (dom (heap w)) in
  let e1 := Call_convert2array data cov out in
  let e2 := Call_estimate data PyNone kwargs in
  let e3 := Call_PolicyTree (tree_kwargs a) in
  if is_None cov then
    (inl (Raise AssertionError "Need covariate to interpret the causal effect."), w)
  else if negb (_is_fitted est_model) then
    (inl (Raise AssertionError ""), w)
  else
    match convert2array data cov out with
    | inl e => (inl e, log w [e1])
    | inr (v, PyArr y) =>
        match shape y with
        | [n; _y_d] =>
            let dv := <["v" := v]> d in
            if negb (_y_d =? 1) then
              (inl (Raise AssertionError ""), log (store w self dv) [e1])
            else if bool_decide (is_Some (kwargs !! "data")) then
              (inl (Raise TypeError "got multiple values for keyword argument 'data'"),
               log (store w self dv) [e1])
            else if bool_decide (is_Some (kwargs !! "quantity")) then
              (inl (Raise TypeError "got multiple values for keyword argument 'quantity'"),
               log (store w self dv) [e1])
            else
              match estimate est_model data PyNone kwargs with
              | inl e => (inl e, log (store w self dv) [e1; e2])
              | inr (PyArr ce) =>
                  match flatten_attempt ce n with
                  | inl e => (inl e, log (store w self dv) [e1; e2])
                  | inr _ =>
                      match PolicyTree (tree_kwargs a) with
                      | inl e => (inl e, log (store w self dv) [e1; e2; e3])
                      | inr t =>
                          let '(r, t') := PolicyTree_fit t data cov (PyArr ce) in
                          let dt := <["_tree" := PyRef l]> dv in
                          let w' := log {| heap := <[l := TreeObj t']> (heap w);
                                           trace := trace w |}
                                        [e1; e2; e3;
                                         Call_tree_fit l data cov (PyArr ce)] in
                          match r with
                          | inl e => (inl e, store w' self dt)
                          | inr _ =>
                              (inr self,
                               store w' self (<["_is_fitted" := PyBool true]> dt))
                          end
                      end
                  end
              | inr x =>
                  (inl (Raise AttributeError
                          ("'" +:+ type_name x +:+ "' object has no attribute 'ndim'")),
                   log (store w self dv) [e1; e2])
              end
        | _ => (inl (Raise ValueError "wrong number of values to unpack"), log w [e1])
        end
    | inr (v, y) =>
        (inl (Raise AttributeError
                ("'" +:+ type_name y +:+ "' object has no attribute 'shape'")),
         log w [e1])
    end.

(** [o.name], when [o] is a live instance that has the attribute. *)
Definition attr (w : world) (o : loc) (name : string) : option pyval :=
  match heap w !! o with
  | Some (Instance d) => d !! name
  | _ => None
  end.

(** The tree object [o._tree] refers to. *)
Definition tree_of (w : world) (o : loc) : option Tree :=
  match attr w o "_tree" with
  | Some (PyRef l) =>
      match heap w !! l with
      | Some (TreeObj t) => Some t
      | _ => None
      end
  | _ => None
  end.

(** The fitted state of an interpreter: [v], the tree behind [_tree],
    and [_is_fitted]. *)
Definition fitted_state (w : world) (o : loc)
  : option pyval * option Tree * option pyval :=
  (attr w o "v", tree_of w o, attr w o "_is_fitted").

(** The message of the assertion in [interpret]. *)
Definition not_fitted_msg : string :=
  "The model is not fitted yet. Please use the fit method first.".

(** [y] is an array of shape (n, 1). *)
Definition univariate (y : pyval) : Prop :=
  ∃ a n, y = PyArr a ∧ shape a = [n; 1].

(** The attribute dictionary [__init__] builds from an empty one. *)
Definition init_attrs (a : init_args) : gmap string pyval :=
  <["max_features" := max_features a]>
  (<["min_weight_fraction_leaf" := min_weight_fraction_leaf a]>
  (<["random_state" := random_state a]>
  (<["ccp_alpha" := ccp_alpha a]>
  (<["min_impurity_decrease" := min_impurity_decrease a]>
  (<["max_leaf_nodes" := max_leaf_nodes a]>
  (<["min_samples_leaf" := min_samples_leaf a]>
  (<["min_samples_split" := min_samples_split a]>
  (<["max_depth" := max_depth a]>
  (<["splitter" := splitter a]>
  (<["criterion" := criterion a]>
  (<["outcome" := PyNone]>
  (<["treatment" := PyNone]>
  (<["_is_fitted" := PyBool false]> ∅))))))))))))).

End PolicyInterpreter.

(** ** A concrete set of collaborators

    Tables are lists of named columns; a tree records the keyword
    arguments it was built with and what it was last fitted on. *)

Definition frame := list (string * list spec_float).

Definition column (data : frame) (name : pyval) : res (list spec_float) :=
  match name with
  | PyStr s =>
      match list_find (λ c, c.1 = s) data with
      | Some (_, c) => inr c.2
      | None => inl (Raise KeyError s)
      end
  | _ => inl (Raise KeyError "")
  end.

Fixpoint columns (data : frame) (names : list pyval) : res (list (list spec_float)) :=
  match names with
  | [] => inr []
  | n :: ns =>
      match column data n, columns data ns with
      | inr c, inr cs => inr (c :: cs)
      | inl e, _ => inl e
      | _, inl e => inl e
      end
  end.

Definition nrows (data : frame) : nat :=
  match data with [] => 0%nat | c :: _ => length c.2 end.

Definition select (data : frame) (cols : pyval) : res pyval :=
  match cols with
  | PyNone => inr PyNone
  | PyList names =>
      match columns data names with
      | inr cs =>
          let rows := map (λ i, map (λ c, nth i c (S754_zero false)) cs)
                          (seq 0 (nrows data)) in
          inr (PyArr {| shape := [Z.of_nat (nrows data); Z.of_nat (length names)];
                        buffer := concat rows |})
      | inl e => inl e
      end
  | _ => inl (Raise KeyError "")
  end.

Record demo_tree := DemoTree {
  tree_kw : kwlist;
  fitted_on : option (frame * pyval * pyval);
}.

Definition demo : Collaborators := {|
  DataFrame := frame;
  Tree := demo_tree;
  convert2array data cov out :=
    match select data cov, select data out with
    | inr v, inr y => inr (v, y)
    | inl e, _ => inl e
    | _, inl e => inl e
    end;
  PolicyTree kw := inr {| tree_kw := kw; fitted_on := None |};
  PolicyTree_fit t data cov eff :=
    (inr tt, {| tree_kw := tree_kw t; fitted_on := Some (data, cov, eff) |});
|}.

Section Demo.
#[local] Existing Instance demo.

Definition one : spec_float := S754_finite false 1 0.

Definition demo_data : frame :=
  [("x", [one; S754_zero false]); ("y", [S754_zero false; one]);
   ("z", [one; one])].

(** Effects of shape (2, 2, 1). *)
Definition effects3 : ndarray :=
  {| shape := [2; 2; 1]; buffer := [one; S754_zero false; S754_zero false; one] |}.

(** Effects of shape (3, 1, 1): not a multiple of two rows. *)
Definition effects_odd : ndarray :=
  {| shape := [3; 1; 1]; buffer := [one; one; one] |}.

(** Effects of shape (2, 2). *)
Definition effects2 : ndarray :=
  {| shape := [2; 2]; buffer := [one; S754_zero false; S754_zero false; one] |}.

Definition demo_est (fitted : bool) (out : list string) (eff : ndarray)
  : estimator :=
  {| covariate := PyList [PyStr "x"; PyStr "z"];
     outcome := PyList (map PyStr out);
     _is_fitted := fitted;
     estimate := λ _ _ _, inr (PyArr eff) |}.

(** What [convert2array] makes of the columns x, z and of y (and y, z). *)
Definition demo_v : ndarray :=
  {| shape := [2; 2]; buffer := [one; one; S754_zero false; one] |}.

Definition demo_y : ndarray :=
  {| shape := [2; 1]; buffer := [S754_zero false; one] |}.

Definition demo_yz : ndarray :=
  {| shape := [2; 2]; buffer := [S754_zero false; one; one; one] |}.

(** The tree built from the default configuration, before and after it
    is fitted on [eff]. *)
Definition demo_tree0 : demo_tree :=
  {| tree_kw := tree_kwargs default_args; fitted_on := None |}.

Definition demo_tree1 (eff : ndarray) : demo_tree :=
  {| tree_kw := tree_kwargs default_args;
     fitted_on := Some (demo_data, PyList [PyStr "x"; PyStr "z"], PyArr eff) |}.

Definition w0 : world := {| heap := ∅; trace := [] |}.

(** A fresh interpreter with the default configuration. *)
Definition w1 : world := (PolicyInterpreter default_args w0).2.
Definition self1 : loc := fresh (dom (heap w0)).

(** The interpreter of [w1] fitted on effects of rank 3, then fitted
    again on effects of rank 2. *)
Definition w2 : world :=
  (fit self1 demo_data (demo_est true ["y"] effects3) ∅ w1).2.

Definition w3 : world :=
  (fit self1 demo_data (demo_est true ["y"] effects2) ∅ w2).2.

End Demo.

(** ** More inputs, and collaborators that refuse

    A table without rows, an estimator whose [estimate] raises, and a
    second set of collaborators whose tree checks what it is given: the
    constructor accepts the criterion ['policy_reg'] only, and the
    tree's [fit] accepts effect arrays of two dimensions only. *)

Section DemoInputs.
#[local] Existing Instance demo.

Definition empty_data : frame := [("x", []); ("y", []); ("z", [])].

(** No effects, of shape (0, 2, 1). *)
Definition effects_none : ndarray := {| shape := [0; 2; 1]; buffer := [] |}.

Definition failing_est : estimator :=
  {| covariate := PyList [PyStr "x"; PyStr "z"];
     outcome := PyList [PyStr "y"];
     _is_fitted := true;
     estimate := λ _ _ _, inl (Raise ValueError "no effect to estimate") |}.

(** The keyword arguments of [fit(data, est_model, quantity='ATE')]. *)
Definition quantity_kw : gmap string pyval := {["quantity" := PyStr "ATE"]}.

End DemoInputs.

Definition is_policy_reg (kw : kwlist) : bool :=
  match kw with
  | (_, PyStr c) :: _ => String.eqb c "policy_reg"
  | _ => false
  end.

Definition strict : Collaborators := {|
  DataFrame := frame;
  Tree := demo_tree;
  convert2array data cov out :=
    match select data cov, select data out with
    | inr v, inr y => inr (v, y)
    | inl e, _ => inl e
    | _, inl e => inl e
    end;
  PolicyTree kw :=
    if is_policy_reg kw then inr {| tree_kw := kw; fitted_on := None |}
    else inl (Raise ValueError "unknown criterion");
  PolicyTree_fit t data cov eff :=
    match eff with
    | PyArr a =>
        if ndim a =? 2
        then (inr tt, {| tree_kw := tree_kw t; fitted_on := Some (data, cov, eff) |})
        else (inl (Raise ValueError "effect_array must have two dimensions"), t)
    | _ => (inl (Raise TypeError "effect_array must be an array"), t)
    end;
|}.

Section StrictInputs.
#[local] Existing Instance strict.

Definition strict_est (eff : ndarray) : estimator :=
  {| covariate := PyList [PyStr "x"; PyStr "z"];
     outcome := PyList [PyStr "y"];
     _is_fitted := true;
     estimate := λ _ _ _, inr (PyArr eff) |}.

(** The default configuration but for a criterion the tree refuses. *)
Definition gini_args : init_args := {|
  criterion := PyStr "gini";
  splitter := PyStr "best";
  max_depth := PyNone;
  min_samples_split := PyInt 2;
  min_samples_leaf := PyInt 1;
  random_state := PyInt 2022;
  max_leaf_nodes := PyNone;
  max_features := PyNone;
  min_impurity_decrease := PyFloat (S754_zero false);
  ccp_alpha := PyFloat (S754_zero false);
  min_weight_fraction_leaf := PyFloat (S754_zero false);
|}.

Definition sw0 : world := {| heap := ∅; trace := [] |}.

(** A fresh interpreter with the default configuration, and one with
    [gini_args]. *)
Definition sself1 : loc := fresh (dom (heap sw0)).
Definition sw1 : world := (PolicyInterpreter default_args sw0).2.
Definition sw1_gini : world := (PolicyInterpreter gini_args sw0).2.

End StrictInputs.

(** ** Proofs

    The statements about [fit] are made of an instance [self] whose
    attributes [d] hold a configuration [a] ([instance], [configured]):
    the constructor establishes both and [fit] keeps them. *)
Section Proofs.
Context `{!Collaborators}.

(** *** Running a method body *)

Lemma run_bind {A B} (m : M A) (k : A → M B) (w : world) :
  (m ≫= k) w = match m w with
               | (inl e, w') => (inl e, w')
               | (inr a, w') => k a w'
               end.
Proof. reflexivity. Qed.

Lemma getattr_run w o d name x :
  heap w !! o = Some (Instance d) → d !! name = Some x →
  getattr o name w = (inr x, w).
Proof. intros Ho Hx. unfold getattr. by rewrite Ho, Hx. Qed.

Lemma setattr_run w o d name x :
  heap w !! o = Some (Instance d) →
  setattr o name x w =
    (inr tt, {| heap := <[o := Instance (<[name := x]> d)]> (heap w);
                trace := trace w |}).
Proof. intros Ho. unfold setattr. by rewrite Ho. Qed.

Lemma call_convert2array_run data cov out w :
  call_convert2array data cov out w =
    (convert2array data cov out, log w [Call_convert2array data cov out]).
Proof. reflexivity. Qed.

Lemma call_PolicyTree_run kw w :
  call_PolicyTree kw w =
    match PolicyTree kw with
    | inl e => (inl e, log w [Call_PolicyTree kw])
    | inr t =>
        let l := fresh (dom (heap w)) in
        (inr (PyRef l), {| heap := <[l := TreeObj t]> (heap w);
                           trace := trace w ++ [Call_PolicyTree kw] |})
    end.
Proof.
  unfold call_PolicyTree. rewrite !run_bind. cbn [emit lift].
  destruct (PolicyTree kw); reflexivity.
Qed.

Lemma call_tree_fit_run l t data cov eff w :
  heap w !! l = Some (TreeObj t) →
  call_tree_fit (PyRef l) data cov eff w =
    ((PolicyTree_fit t data cov eff).1,
     {| heap := <[l := TreeObj (PolicyTree_fit t data cov eff).2]> (heap w);
        trace := trace w ++ [Call_tree_fit l data cov eff] |}).
Proof.
  intros Hl. unfold call_tree_fit. rewrite Hl.
  by destruct (PolicyTree_fit t data cov eff).
Qed.

(** A new object never takes the identity of a live one. *)
Lemma fresh_live (h : gmap loc cell) (o : loc) (c : cell) :
  h !! o = Some c → fresh (dom h) ≠ o.
Proof.
  intros Ho E. apply (is_fresh (dom h)). rewrite E.
  apply elem_of_dom. eauto.
Qed.

Lemma dom_store (h : gmap loc cell) (o : loc) (c c' : cell) :
  h !! o = Some c → dom (<[o := c']> h) = dom h.
Proof. intros Ho. apply dom_insert_lookup_L. eauto. Qed.

Ltac fit_step := rewrite run_bind; cbn [assert_ ret negb heap trace].

Lemma fit_summary_correct w self d a data est kw :
  instance w self d → configured d a →
  fit self data est kw w = fit_summary self d a data est kw w.
Proof.
  unfold instance, configured.
  intros Hself (Hc1 & Hc2 & Hc3 & Hc4 & Hc5 & Hc6 & Hc7 & Hc8 & Hc9 & Hc10 & Hc11).
  unfold fit, fit_summary.
  destruct (is_None (covariate est)); fit_step; [reflexivity|].
  destruct (_is_fitted est); fit_step; [|reflexivity].
  fit_step. rewrite call_convert2array_run.
  destruct (convert2array _ _ _) as [e|[v y]]; [reflexivity|].
  fit_step. fit_step.
  destruct y as [| |?|?|?|?|?|y|?]; try reflexivity.
  cbn [np_shape ret].
  destruct (shape y) as [|n [|k [|? ?]]]; try reflexivity.
  cbn [unpack2 ret].
  fit_step. erewrite setattr_run by exact Hself.
  cbn [log heap trace].
  destruct (k =? 1); fit_step; [|reflexivity].
  fit_step. unfold call_estimate at 1.
  destruct (bool_decide (is_Some (kw !! "data"))); [reflexivity|].
  destruct (bool_decide (is_Some (kw !! "quantity"))); [reflexivity|].
  rewrite run_bind. cbn [emit lift heap trace].
  rewrite <- app_assoc. cbn [app].
  destruct (estimate est data PyNone kw) as [e|ce]; [reflexivity|].
  fit_step.
  destruct ce as [| |?|?|?|?|?|ce|?]; try reflexivity.
  cbn [np_ndim ret]. fit_step. unfold flatten_attempt.
  set (dv := <["v":=v]> d).
  assert (Hflat :
    ∀ w0, (if ndim ce =? 3
           then np_reshape (PyArr ce) [n; -1] ≫= λ _ : pyval, ret ()
           else ret () : M unit) w0 =
          (if ndim ce =? 3
           then match reshape ce [n; -1] with inl e => inl e | inr _ => inr tt end
           else inr tt, w0)).
  { intros w0. destruct (ndim ce =? 3); [|reflexivity].
    rewrite run_bind. cbn [np_reshape]. rewrite run_bind. cbn [lift].
    by destruct (reshape ce [n; -1]). }
  rewrite Hflat. clear Hflat.
  destruct (if ndim ce =? 3 then _ else _) as [e|[]]; [reflexivity|].
  assert (Hdv : ∀ tr, heap {| heap := <[self:=Instance dv]> (heap w); trace := tr |}
                        !! self = Some (Instance dv)).
  { intros tr. apply lookup_insert_eq. }
  assert (Hget : ∀ name x, name ≠ "v" → d !! name = Some x → dv !! name = Some x).
  { intros name x Hne Hx. subst dv. by rewrite lookup_insert_ne. }
  do 11 (fit_step; erewrite getattr_run; [ | apply Hdv | by apply Hget ]).
  fit_step. rewrite call_PolicyTree_run. fold (tree_kwargs a).
  destruct (PolicyTree (tree_kwargs a)) as [e|t].
  { unfold log, store. cbn [heap trace]. by rewrite <- app_assoc. }
  cbn zeta. cbn [heap trace].
  rewrite (dom_store _ _ _ _ Hself).
  set (l := fresh (dom (heap w))).
  assert (Hl : l ≠ self) by (by apply (fresh_live _ _ _ Hself)).
  fit_step. erewrite setattr_run
    by (cbn [heap]; rewrite lookup_insert_ne by done; apply lookup_insert_eq).
  cbn [heap trace].
  fit_step. erewrite getattr_run;
    [ | cbn [heap]; apply lookup_insert_eq | apply lookup_insert_eq ].
  fit_step. erewrite call_tree_fit_run
    by (cbn [heap]; rewrite lookup_insert_ne by done; apply lookup_insert_eq).
  cbn [heap trace].
  destruct (PolicyTree_fit t data (covariate est) (PyArr ce)) as [r t'].
  cbn [fst snd].
  set (dt := <["_tree":=PyRef l]> dv).
  assert (Hheap :
    <[l:=TreeObj t']> (<[self:=Instance dt]>
       (<[l:=TreeObj t]> (<[self:=Instance dv]> (heap w))))
    = <[self:=Instance dt]> (<[l:=TreeObj t']> (heap w))).
  { rewrite (insert_insert_ne _ self l) by done.
    rewrite !insert_insert_eq.
    by rewrite (insert_insert_ne _ l self). }
  rewrite Hheap. rewrite <- !app_assoc. cbn [app].
  destruct r as [e|[]]; [reflexivity|].
  fit_step. erewrite setattr_run by (cbn [heap]; apply lookup_insert_eq).
  cbn [heap trace]. unfold store, log. cbn [heap trace].
  by rewrite insert_insert_eq.
Qed.

(** *** The constructor *)

Lemma setattr_store w o d name x :
  setattr o name x (store w o d) = (inr tt, store w o (<[name := x]> d)).
Proof.
  unfold store. erewrite setattr_run by apply lookup_insert_eq.
  cbn [heap trace]. by rewrite insert_insert_eq.
Qed.

Lemma init_run self a w :
  __init__ self a (store w self ∅) = (inr tt, store w self (init_attrs a)).
Proof.
  unfold __init__, init_attrs.
  do 13 (rewrite run_bind, setattr_store).
  by rewrite setattr_store.
Qed.

Lemma PolicyInterpreter_run a w :
  PolicyInterpreter a w =
    (inr (fresh (dom (heap w))),
     store w (fresh (dom (heap w))) (init_attrs a)).
Proof.
  unfold PolicyInterpreter. rewrite run_bind. cbn [alloc].
  change {| heap := <[?l := Instance ∅]> (heap w); trace := trace w |}
    with (store w l ∅).
  by rewrite run_bind, init_run.
Qed.

Lemma init_attrs_configured a : configured (init_attrs a) a.
Proof. repeat split. Qed.

Lemma init_attrs_state a :
  init_attrs a !! "_is_fitted" = Some (PyBool false) ∧
  init_attrs a !! "treatment" = Some PyNone ∧
  init_attrs a !! "outcome" = Some PyNone ∧
  init_attrs a !! "v" = None ∧
  init_attrs a !! "_tree" = None.
Proof. repeat split. Qed.

(** *** [interpret] *)

Lemma interpret_run w self d b :
  instance w self d → d !! "_is_fitted" = Some (PyBool b) →
  interpret self w =
    (inl (if b then Raise TypeError "'NotImplementedType' object is not callable"
          else Raise AssertionError not_fitted_msg), w).
Proof.
  intros Hself Hb. unfold interpret.
  rewrite run_bind. erewrite getattr_run by eassumption.
  rewrite run_bind. cbn [truthy ret].
  by destruct b.
Qed.

(** X1.  [interpret] never returns and never writes: on every world
    and every receiver it ends in an exception and leaves the world as
    it found it. *)
Lemma interpret_always_raises w self :
  ∃ e, interpret self w = (inl e, w).
Proof.
  unfold interpret, getattr. rewrite run_bind.
  destruct (heap w !! self) as [[d|t]|]; try by eexists.
  destruct (d !! "_is_fitted") as [x|]; [|by eexists].
  rewrite run_bind.
  destruct x as [| |[]|z|f|s|l|a|?]; cbn [truthy ret]; try by eexists.
  - destruct (negb (z =? 0)); by eexists.
  - destruct (nonzero f); by eexists.
  - destruct (negb (String.eqb s "")); by eexists.
  - destruct (negb (bool_decide (length l = 0%nat))); by eexists.
  - destruct (buffer a) as [|f [|? ?]]; try by eexists.
    destruct (nonzero f); by eexists.
Qed.

(** The constructor establishes what the statements about [fit] assume
    of an instance ([fit] keeps it: [fit_preserves_configuration]). *)
Lemma PolicyInterpreter_configured a w :
  ∃ self w',
    PolicyInterpreter a w = (inr self, w') ∧
    instance w' self (init_attrs a) ∧ configured (init_attrs a) a.
Proof.
  eexists _, _. split; [apply PolicyInterpreter_run|].
  split; [apply lookup_insert_eq | apply init_attrs_configured].
Qed.

(** *** The checks at the head of [fit] *)

Lemma fit_no_covariate w self data est kw :
  is_None (covariate est) = true →
  fit self data est kw w =
    (inl (Raise AssertionError "Need covariate to interpret the causal effect."), w).
Proof. intros Hc. unfold fit. rewrite Hc. by fit_step. Qed.

Lemma fit_estimator_unfitted w self data est kw :
  is_None (covariate est) = false → _is_fitted est = false →
  fit self data est kw w = (inl (Raise AssertionError ""), w).
Proof. intros Hc Hf. unfold fit. rewrite Hc, Hf. by do 2 fit_step. Qed.

Lemma fit_outcome_no_shape w self data est kw v y :
  is_None (covariate est) = false → _is_fitted est = true →
  convert2array data (covariate est) (outcome est) = inr (v, y) →
  (∀ a, y ≠ PyArr a) →
  ∃ e, fit self data est kw w =
    (inl e, log w [Call_convert2array data (covariate est) (outcome est)]).
Proof.
  intros Hc Hf Hconv Hy. unfold fit. rewrite Hc, Hf. do 3 fit_step.
  rewrite call_convert2array_run, Hconv. do 2 fit_step.
  destruct y; try (by eexists); by destruct (Hy a).
Qed.

Lemma fit_outcome_bad_rank w self data est kw v y :
  is_None (covariate est) = false → _is_fitted est = true →
  convert2array data (covariate est) (outcome est) = inr (v, PyArr y) →
  length (shape y) ≠ 2%nat →
  fit self data est kw w =
    (inl (Raise ValueError "wrong number of values to unpack"),
     log w [Call_convert2array data (covariate est) (outcome est)]).
Proof.
  intros Hc Hf Hconv Hy. unfold fit. rewrite Hc, Hf. do 3 fit_step.
  rewrite call_convert2array_run, Hconv. do 2 fit_step.
  cbn [np_shape ret]. by destruct (shape y) as [|n [|k [|? ?]]].
Qed.

Lemma fit_outcome_not_single w self d data est kw v y n k :
  instance w self d →
  is_None (covariate est) = false → _is_fitted est = true →
  convert2array data (covariate est) (outcome est) = inr (v, PyArr y) →
  shape y = [n; k] → k ≠ 1 →
  fit self data est kw w =
    (inl (Raise AssertionError ""),
     log (store w self (<["v" := v]> d))
         [Call_convert2array data (covariate est) (outcome est)]).
Proof.
  intros Hself Hc Hf Hconv Hy Hk. unfold fit. rewrite Hc, Hf. do 3 fit_step.
  rewrite call_convert2array_run, Hconv. do 2 fit_step.
  cbn [np_shape ret]. rewrite Hy. cbn [unpack2 ret].
  fit_step. erewrite setattr_run by exact Hself.
  fit_step. by apply Z.eqb_neq in Hk as ->.
Qed.

(** An outcome that is not univariate stops [fit] at one of the three
    places above. *)
Lemma not_univariate_cases (y : pyval) :
  ¬ univariate y →
  (∀ a, y ≠ PyArr a) ∨
  (∃ a, y = PyArr a ∧ length (shape a) ≠ 2%nat) ∨
  (∃ a n k, y = PyArr a ∧ shape a = [n; k] ∧ k ≠ 1).
Proof.
  intros Hy. destruct y as [| |?|?|?|?|?|a|?]; try (by left).
  right. destruct (shape a) as [|n [|k [|? ?]]] eqn:Hs;
    try (left; exists a; by rewrite Hs).
  right. exists a, n, k. repeat split; [done|].
  intros ->. apply Hy. by exists a, n.
Qed.

(** Attributes of a stored instance. *)
Lemma attr_store w o d name : attr (store w o d) o name = d !! name.
Proof. unfold attr, store. cbn [heap]. by rewrite lookup_insert_eq. Qed.

Lemma attr_instance w o d name : instance w o d → attr w o name = d !! name.
Proof. unfold attr, instance. by intros ->. Qed.

(** C5.  Whatever the data, the keyword arguments and the state of the
    interpreter, [fit] raises when the estimator's [_is_fitted] is false
    (an [AssertionError], and nothing has been touched). *)
Theorem fit_raises_when_estimator_unfitted w self data est kw :
  _is_fitted est = false →
  ∃ msg, fit self data est kw w = (inl (Raise AssertionError msg), w).
Proof.
  intros Hf. destruct (is_None (covariate est)) eqn:Hc.
  - eexists. by apply fit_no_covariate.
  - eexists. by apply fit_estimator_unfitted.
Qed.

(** C4.  When one of the three preconditions fails (the estimator has no
    covariate, the estimator is not fitted, or the converted outcome is
    not an array of shape (n, 1)), [fit] raises; the only call it has
    issued, if any, is the one to [convert2array], so no policy tree was
    constructed or fitted and no object was created; and [_is_fitted]
    and [_tree] of the instance are what they were before the call: an
    instance that was not fit-marked is not fit-marked afterwards. *)
Theorem fit_precondition_failure w self d data est kw :
  instance w self d →
  (is_None (covariate est) = true ∨
   _is_fitted est = false ∨
   ∃ v y, convert2array data (covariate est) (outcome est) = inr (v, y) ∧
          ¬ univariate y) →
  ∃ e w',
    fit self data est kw w = (inl e, w') ∧
    (trace w' = trace w ∨
     trace w' = trace w ++
       [Call_convert2array data (covariate est) (outcome est)]) ∧
    dom (heap w') = dom (heap w) ∧
    attr w' self "_tree" = attr w self "_tree" ∧
    attr w' self "_is_fitted" = attr w self "_is_fitted" ∧
    (attr w self "_is_fitted" = Some (PyBool false) →
     attr w' self "_is_fitted" = Some (PyBool false)).
Proof.
  intros Hself Hpre.
  destruct (is_None (covariate est)) eqn:Hc.
  { eexists _, w. split; [by apply fit_no_covariate|]. by split_and!; auto. }
  destruct (_is_fitted est) eqn:Hf; cycle 1.
  { eexists _, w. split; [by apply fit_estimator_unfitted|]. by split_and!; auto. }
  destruct Hpre as [?|[?|(v & y & Hconv & Hy)]]; [done|done|].
  destruct (not_univariate_cases y Hy)
    as [Hno|[(a & -> & Hlen)|(a & n & k & -> & Hs & Hk)]].
  - destruct (fit_outcome_no_shape w self data est kw v y Hc Hf Hconv Hno) as [e He].
    eexists _, _. split; [exact He|]. by split_and!; auto.
  - eexists _, _. split; [by eapply fit_outcome_bad_rank|]. by split_and!; auto.
  - eexists _, _. split; [by eapply fit_outcome_not_single|].
    assert (Hattr : ∀ name, name ≠ "v" →
      attr (log (store w self (<["v":=v]> d))
              [Call_convert2array data (covariate est) (outcome est)]) self name
      = attr w self name).
    { intros name Hne. rewrite (attr_instance w self d) by done.
      unfold attr, log, store. cbn [heap].
      by rewrite lookup_insert_eq, lookup_insert_ne. }
    split_and!; [by right | by eapply dom_store | by apply Hattr
                | by apply Hattr | rewrite Hattr; auto].
Qed.

(** C6.  With a covariate and a fitted estimator, an outcome array [y]
    whose [y.shape[1]] is not 1 makes [fit] raise. *)
Theorem fit_raises_when_outcome_not_univariate w self d data est kw v y k :
  instance w self d →
  is_None (covariate est) = false →
  _is_fitted est = true →
  convert2array data (covariate est) (outcome est) = inr (v, PyArr y) →
  shape y !! 1%nat = Some k →
  k ≠ 1 →
  ∃ e w', fit self data est kw w = (inl e, w').
Proof.
  intros Hself Hc Hf Hconv Hk Hne.
  destruct (shape y) as [|n [|k' [|? ?]]] eqn:Hs; simplify_eq/=.
  - eexists _, _. by eapply fit_outcome_not_single.
  - eexists _, _. eapply fit_outcome_bad_rank; try done. by rewrite Hs.
Qed.

(** C9.  [fit] assigns [self.v] before it asserts that the outcome is
    univariate: when the covariate and fitted-estimator checks pass and
    the outcome array has shape (n, k) with k different from 1, the call
    fails on that assertion with [self.v] already holding the newly
    converted covariate matrix; every other attribute, [_is_fitted]
    among them, is as before.  The failing call has changed the
    instance unless [v] already had that value. *)
Theorem fit_assigns_v_before_univariate_check w self d data est kw v y n k :
  instance w self d →
  is_None (covariate est) = false →
  _is_fitted est = true →
  convert2array data (covariate est) (outcome est) = inr (v, PyArr y) →
  shape y = [n; k] →
  k ≠ 1 →
  ∃ w',
    fit self data est kw w = (inl (Raise AssertionError ""), w') ∧
    instance w' self (<["v" := v]> d) ∧
    attr w' self "v" = Some v ∧
    attr w' self "_is_fitted" = attr w self "_is_fitted" ∧
    (attr w self "v" ≠ Some v → heap w' !! self ≠ heap w !! self).
Proof.
  intros Hself Hc Hf Hconv Hs Hk.
  eexists. split; [by eapply fit_outcome_not_single|].
  assert (Hi : instance
    (log (store w self (<["v":=v]> d))
       [Call_convert2array data (covariate est) (outcome est)])
    self (<["v":=v]> d)).
  { unfold instance, log, store. cbn [heap]. apply lookup_insert_eq. }
  split_and!.
  - exact Hi.
  - rewrite (attr_instance _ _ _ _ Hi). apply lookup_insert_eq.
  - rewrite (attr_instance _ _ _ _ Hi), (attr_instance _ _ _ _ Hself).
    by rewrite lookup_insert_ne.
  - rewrite (attr_instance _ _ _ _ Hself). intros Hv Heq.
    rewrite Hi, Hself in Heq. simplify_eq.
    apply Hv. rewrite <- Heq. apply lookup_insert_eq.
Qed.

(** *** A call of [fit] that returns *)

(** The world a returning call leaves: [v], a new fitted tree at [l]
    behind [_tree], the flag raised, and the four calls recorded. *)
Lemma fit_returns w self d a data est kw v y n ce t t' :
  instance w self d → configured d a →
  is_None (covariate est) = false →
  _is_fitted est = true →
  convert2array data (covariate est) (outcome est) = inr (v, PyArr y) →
  shape y = [n; 1] →
  kw !! "data" = None → kw !! "quantity" = None →
  estimate est data PyNone kw = inr (PyArr ce) →
  flatten_attempt ce n = inr tt →
  PolicyTree (tree_kwargs a) = inr t →
  PolicyTree_fit t data (covariate est) (PyArr ce) = (inr tt, t') →
  let l := fresh (dom (heap w)) in
  fit self data est kw w =
    (inr self,
     {| heap :=
          <[self := Instance (<["_is_fitted" := PyBool true]>
                               (<["_tree" := PyRef l]> (<["v" := v]> d)))]>
            (<[l := TreeObj t']> (heap w));
        trace := trace w ++
          [Call_convert2array data (covariate est) (outcome est);
           Call_estimate data PyNone kw;
           Call_PolicyTree (tree_kwargs a);
           Call_tree_fit l data (covariate est) (PyArr ce)] |}).
Proof.
  intros Hself Hcfg Hc Hf Hconv Hy Hk1 Hk2 He Hfl Ht Ht' l.
  rewrite (fit_summary_correct _ _ _ _ _ _ _ Hself Hcfg).
  unfold fit_summary. rewrite Hc, Hf, Hconv, Hy, Hk1, Hk2, He, Hfl, Ht, Ht'.
  cbn [negb Z.eqb Pos.eqb].
  rewrite !bool_decide_eq_false_2 by (by intros [? ?]).
  reflexivity.
Qed.

(** Conversely, a call that returns has passed every check and every
    call it made has returned. *)
Lemma fit_returns_inv w self d a data est kw r w' :
  instance w self d → configured d a →
  fit self data est kw w = (inr r, w') →
  ∃ v y n ce t t',
    is_None (covariate est) = false ∧
    _is_fitted est = true ∧
    convert2array data (covariate est) (outcome est) = inr (v, PyArr y) ∧
    shape y = [n; 1] ∧
    kw !! "data" = None ∧ kw !! "quantity" = None ∧
    estimate est data PyNone kw = inr (PyArr ce) ∧
    flatten_attempt ce n = inr tt ∧
    PolicyTree (tree_kwargs a) = inr t ∧
    PolicyTree_fit t data (covariate est) (PyArr ce) = (inr tt, t') ∧
    r = self.
Proof.
  intros Hself Hcfg.
  rewrite (fit_summary_correct _ _ _ _ _ _ _ Hself Hcfg).
  unfold fit_summary. intros Hr.
  repeat case_match; simplify_eq.
  repeat match goal with
         | Hn : negb _ = false |- _ => apply negb_false_iff in Hn
         | Hb : bool_decide (is_Some _) = false |- _ =>
             apply bool_decide_eq_false in Hb; rewrite <- eq_None_not_Some in Hb
         | Hz : (_ =? 1) = true |- _ => apply Z.eqb_eq in Hz as ->
         | u : unit |- _ => destruct u
         end.
  eexists _, _, _, _, _, _. by split_and!.
Qed.

(** Writing [v], [_tree] or [_is_fitted] leaves the configuration as it
    is. *)
Lemma configured_fitted d a v tree flag :
  configured d a →
  configured (<["_is_fitted" := flag]> (<["_tree" := tree]> (<["v" := v]> d))) a.
Proof.
  unfold configured. intros Hcfg.
  rewrite !lookup_insert_ne by done. exact Hcfg.
Qed.

(** [reshape] returns an array of the rank asked for, over the same
    elements. *)
Lemma reshape_inr a newshape b :
  reshape a newshape = inr b →
  ndim b = Z.of_nat (length newshape) ∧ buffer b = buffer a.
Proof.
  unfold reshape, ndim. intros Hr.
  repeat case_match; simplify_eq; cbn [shape buffer];
    by rewrite ?length_map.
Qed.

(** What [reshape(n, -1)] does to an array of shape (n, k, m): with
    rows it flattens the last two axes; without rows it raises, numpy
    having nothing to divide by. *)
Lemma reshape_rows (a : ndarray) (n k m : Z) :
  shape a = [n; k; m] → 0 < n →
  reshape a [n; -1] = inr {| shape := [n; k * m]; buffer := buffer a |}.
Proof.
  intros Hs Hn. unfold reshape, size. rewrite Hs. cbn [List.filter].
  destruct (n <? 0) eqn:Hneg; [lia|].
  destruct (0 <=? n) eqn:Hpos; [|lia].
  cbn [Z.ltb Z.leb Z.compare List.filter prodZ fold_right map].
  rewrite Hneg.
  replace (n * (k * (m * 1))) with ((k * m) * (n * 1)) by lia.
  rewrite Z.mod_mul, Z.div_mul by lia.
  destruct (n * 1 =? 0) eqn:Hz; [lia|]. reflexivity.
Qed.

Lemma reshape_no_rows (a : ndarray) :
  reshape a [0; -1] = inl (Raise ValueError "cannot reshape array").
Proof. reflexivity. Qed.

(** The fitted state of an instance whose three fit attributes were
    just written. *)
Lemma fitted_state_after h tr self l d v t :
  l ≠ self →
  fitted_state
    {| heap := <[self := Instance (<["_is_fitted" := PyBool true]>
                                     (<["_tree" := PyRef l]> (<["v" := v]> d)))]>
                 (<[l := TreeObj t]> h);
       trace := tr |} self
  = (Some v, Some t, Some (PyBool true)).
Proof.
  intros Hl. unfold fitted_state, tree_of, attr. cbn [heap].
  rewrite lookup_insert_eq.
  rewrite (lookup_insert_ne _ "_is_fitted" "_tree") by done.
  rewrite !lookup_insert_eq.
  rewrite (lookup_insert_ne _ self l) by done.
  rewrite lookup_insert_eq.
  by rewrite !lookup_insert_ne, lookup_insert_eq by done.
Qed.

(** C2.  On an instance configured by [a], when the three
    preconditions hold (a covariate, a fitted estimator, an outcome of
    shape (n, 1)) and the calls [fit] makes return (the estimator gives
    an array, the discarded reshape of a 3-D array does not raise, the
    tree is constructed and fitted), [fit] returns [self]; it has
    constructed one new [PolicyTree] from exactly the eleven stored
    hyperparameters, fitted it on the data, the covariate and the effect
    array, and left [_is_fitted] true, [v] the covariate matrix and
    [_tree] the fitted tree. *)
Theorem fit_builds_fits_and_marks w self d a data est kw v y n ce t t' :
  instance w self d →
  configured d a →
  is_None (covariate est) = false →
  _is_fitted est = true →
  convert2array data (covariate est) (outcome est) = inr (v, PyArr y) →
  shape y = [n; 1] →
  kw !! "data" = None →
  kw !! "quantity" = None →
  estimate est data PyNone kw = inr (PyArr ce) →
  (ndim ce = 3 → ∃ flat, reshape ce [n; -1] = inr flat) →
  PolicyTree (tree_kwargs a) = inr t →
  PolicyTree_fit t data (covariate est) (PyArr ce) = (inr tt, t') →
  ∃ l w',
    fit self data est kw w = (inr self, w') ∧
    heap w !! l = None ∧
    trace w' = trace w ++
      [Call_convert2array data (covariate est) (outcome est);
       Call_estimate data PyNone kw;
       Call_PolicyTree (tree_kwargs a);
       Call_tree_fit l data (covariate est) (PyArr ce)] ∧
    heap w' !! l = Some (TreeObj t') ∧
    instance w' self (<["_is_fitted" := PyBool true]>
                        (<["_tree" := PyRef l]> (<["v" := v]> d))) ∧
    fitted_state w' self = (Some v, Some t', Some (PyBool true)).
Proof.
  intros Hself Hcfg Hc Hf Hconv Hy Hk1 Hk2 He Hfl Ht Ht'.
  assert (Hfa : flatten_attempt ce n = inr tt).
  { unfold flatten_attempt. destruct (ndim ce =? 3) eqn:Hnd; [|done].
    apply Z.eqb_eq in Hnd. by destruct (Hfl Hnd) as [flat ->]. }
  assert (Hl : fresh (dom (heap w)) ≠ self) by (by apply (fresh_live _ _ _ Hself)).
  eexists (fresh (dom (heap w))), _.
  split; [by eapply fit_returns|]. cbn [heap trace].
  split_and!.
  - apply not_elem_of_dom, is_fresh.
  - done.
  - rewrite lookup_insert_ne by done. apply lookup_insert_eq.
  - apply lookup_insert_eq.
  - by apply fitted_state_after.
Qed.

(** C1.  When the estimator returns an array [ce] of three dimensions,
    the statement [causal_effect.reshape(n, -1)] only computes a value:
    if numpy can flatten [ce], the flattened two-dimensional array is
    dropped and the tree's [fit] receives [ce] itself as [effect_array];
    if numpy cannot, the call ends there and the tree receives
    nothing.  A flattened array never reaches the tree. *)
Theorem fit_passes_3d_effect_unflattened w self d a data est kw v y n ce t :
  instance w self d →
  configured d a →
  is_None (covariate est) = false →
  _is_fitted est = true →
  convert2array data (covariate est) (outcome est) = inr (v, PyArr y) →
  shape y = [n; 1] →
  kw !! "data" = None →
  kw !! "quantity" = None →
  estimate est data PyNone kw = inr (PyArr ce) →
  ndim ce = 3 →
  PolicyTree (tree_kwargs a) = inr t →
  ∃ r w',
    fit self data est kw w = (r, w') ∧
    match reshape ce [n; -1] with
    | inr flat =>
        ndim flat = 2 ∧ flat ≠ ce ∧
        ∃ l, trace w' = trace w ++
          [Call_convert2array data (covariate est) (outcome est);
           Call_estimate data PyNone kw;
           Call_PolicyTree (tree_kwargs a);
           Call_tree_fit l data (covariate est) (PyArr ce)]
    | inl e =>
        r = inl e ∧
        trace w' = trace w ++
          [Call_convert2array data (covariate est) (outcome est);
           Call_estimate data PyNone kw]
    end.
Proof.
  intros Hself Hcfg Hc Hf Hconv Hy Hk1 Hk2 He Hnd Ht.
  rewrite (fit_summary_correct _ _ _ _ _ _ _ Hself Hcfg).
  unfold fit_summary, flatten_attempt.
  rewrite Hc, Hf, Hconv, Hy, Hk1, Hk2, He, Hnd, Ht.
  cbn [negb Z.eqb Pos.eqb].
  rewrite !bool_decide_eq_false_2 by (by intros [? ?]).
  destruct (reshape ce [n; -1]) as [e|flat] eqn:Hr.
  - eexists _, _. by split_and!.
  - destruct (reshape_inr _ _ _ Hr) as [Hflat _].
    destruct (PolicyTree_fit t data (covariate est) (PyArr ce)) as [[e|[]] t'];
      (eexists _, _; split; [reflexivity|]; split_and!;
       [ done | intros ->; by rewrite Hnd in Hflat | by eexists ]).
Qed.

(** The world a returning call leaves, in one piece. *)
Lemma fit_returns_world w self d a data est kw r w' :
  instance w self d → configured d a →
  fit self data est kw w = (inr r, w') →
  ∃ v t' tr,
    r = self ∧
    w' = {| heap := <[self := Instance (<["_is_fitted" := PyBool true]>
                       (<["_tree" := PyRef (fresh (dom (heap w)))]>
                          (<["v" := v]> d)))]>
                      (<[fresh (dom (heap w)) := TreeObj t']> (heap w));
            trace := tr |} ∧
    (∀ w0 d0, instance w0 self d0 → configured d0 a →
       ∃ tr0, fit self data est kw w0 =
         (inr self,
          {| heap := <[self := Instance (<["_is_fitted" := PyBool true]>
                        (<["_tree" := PyRef (fresh (dom (heap w0)))]>
                           (<["v" := v]> d0)))]>
                       (<[fresh (dom (heap w0)) := TreeObj t']> (heap w0));
             trace := tr0 |})).
Proof.
  intros Hself Hcfg Hfit.
  destruct (fit_returns_inv _ _ _ _ _ _ _ _ _ Hself Hcfg Hfit)
    as (v & y & n & ce & t & t' & Hc & Hf & Hconv & Hy & Hk1 & Hk2 & He
        & Hfl & Ht & Ht' & ->).
  exists v, t'. eexists. split; [done|]. split.
  - rewrite (fit_returns w self d a data est kw v y n ce t t') in Hfit by done.
    by simplify_eq.
  - intros w0 d0 Hself0 Hcfg0. eexists. by eapply fit_returns.
Qed.

(** C7.  When two calls of [fit] in a row both return, the fitted state
    they leave ([v], the tree behind [_tree], [_is_fitted]) is the one
    the second call leaves when it is made alone, on the instance as it
    was before the first: the second call replaces what the first
    wrote. *)
Theorem refit_replaces_fitted_state
    w self d a data1 est1 kw1 data2 est2 kw2 r1 w1 r2 w2 :
  instance w self d →
  configured d a →
  fit self data1 est1 kw1 w = (inr r1, w1) →
  fit self data2 est2 kw2 w1 = (inr r2, w2) →
  ∃ w2',
    fit self data2 est2 kw2 w = (inr r2, w2') ∧
    fitted_state w2 self = fitted_state w2' self.
Proof.
  intros Hself Hcfg Hfit1 Hfit2.
  destruct (fit_returns_world _ _ _ _ _ _ _ _ _ Hself Hcfg Hfit1)
    as (v1 & t1 & tr1 & -> & -> & _).
  set (d1 := <["_is_fitted" := PyBool true]>
               (<["_tree" := PyRef (fresh (dom (heap w)))]> (<["v" := v1]> d)))
    in *.
  set (w1 := {| heap := <[self := Instance d1]> _; trace := tr1 |}) in *.
  assert (Hself1 : instance w1 self d1) by apply lookup_insert_eq.
  assert (Hcfg1 : configured d1 a) by (by apply configured_fitted).
  destruct (fit_returns_world _ _ _ _ _ _ _ _ _ Hself1 Hcfg1 Hfit2)
    as (v2 & t2 & tr2 & -> & -> & Hany).
  destruct (Hany w d Hself Hcfg) as [tr0 Hfit0].
  eexists. split; [exact Hfit0|].
  rewrite !fitted_state_after; [done| |].
  - by apply (fresh_live _ _ _ Hself).
  - by apply (fresh_live _ _ _ Hself1).
Qed.

(** [fit] keeps the instance and its configuration, however it ends. *)
Lemma fit_preserves_configuration w self d a data est kw r w' :
  instance w self d → configured d a →
  fit self data est kw w = (r, w') →
  ∃ d', instance w' self d' ∧ configured d' a.
Proof.
  intros Hself Hcfg.
  rewrite (fit_summary_correct _ _ _ _ _ _ _ Hself Hcfg).
  unfold fit_summary, instance, log, store. intros Hr.
  repeat case_match; simplify_eq; cbn [heap];
    first [ by exists d
          | eexists; split; [apply lookup_insert_eq|];
            unfold configured; by rewrite !lookup_insert_ne by done ].
Qed.

(** C3.  [interpret] on an instance that [fit] has just returned: the
    assertion passes and the operand of [raise], the call
    [NotImplemented()], fails because the constant [NotImplemented] is
    not callable.  The exception that leaves [interpret] is that
    [TypeError], not a [NotImplementedError]. *)
Theorem interpret_after_fit_raises_TypeError w self d a data est kw r w' :
  instance w self d →
  configured d a →
  fit self data est kw w = (inr r, w') →
  interpret r w' =
    (inl (Raise TypeError "'NotImplementedType' object is not callable"), w').
Proof.
  intros Hself Hcfg Hfit.
  destruct (fit_returns_world _ _ _ _ _ _ _ _ _ Hself Hcfg Hfit)
    as (v & t' & tr & -> & -> & _).
  eapply (interpret_run _ _ _ true); [apply lookup_insert_eq|].
  apply lookup_insert_eq.
Qed.

(** C8.  For every choice of the eleven arguments, the constructor
    returns a new instance, calls nothing, and each configuration
    attribute holds the argument of the same name as it was passed. *)
Theorem init_stores_configuration_verbatim (a : init_args) (w : world) :
  ∃ self w',
    PolicyInterpreter a w = (inr self, w') ∧
    heap w !! self = None ∧
    trace w' = trace w ∧
    attr w' self "criterion" = Some (criterion a) ∧
    attr w' self "splitter" = Some (splitter a) ∧
    attr w' self "max_depth" = Some (max_depth a) ∧
    attr w' self "min_samples_split" = Some (min_samples_split a) ∧
    attr w' self "min_samples_leaf" = Some (min_samples_leaf a) ∧
    attr w' self "random_state" = Some (random_state a) ∧
    attr w' self "max_leaf_nodes" = Some (max_leaf_nodes a) ∧
    attr w' self "max_features" = Some (max_features a) ∧
    attr w' self "min_impurity_decrease" = Some (min_impurity_decrease a) ∧
    attr w' self "ccp_alpha" = Some (ccp_alpha a) ∧
    attr w' self "min_weight_fraction_leaf" = Some (min_weight_fraction_leaf a).
Proof.
  eexists _, _. split; [apply PolicyInterpreter_run|].
  split; [apply not_elem_of_dom, is_fresh|].
  split; [done|].
  rewrite !attr_store. apply init_attrs_configured.
Qed.

(** C10.  A newly constructed interpreter has [_is_fitted] false and
    [treatment] and [outcome] None, whatever its configuration, and
    [interpret] on it fails on the assertion with the "not fitted"
    message. *)
Theorem new_instance_is_not_fitted (a : init_args) (w : world) :
  ∃ self w',
    PolicyInterpreter a w = (inr self, w') ∧
    attr w' self "_is_fitted" = Some (PyBool false) ∧
    attr w' self "treatment" = Some PyNone ∧
    attr w' self "outcome" = Some PyNone ∧
    interpret self w' = (inl (Raise AssertionError not_fitted_msg), w').
Proof.
  eexists _, _. split; [apply PolicyInterpreter_run|].
  rewrite !attr_store. split_and!; try done.
  eapply (interpret_run _ _ _ false); [apply lookup_insert_eq|].
  apply init_attrs_state.
Qed.

(** *** What [fit] leaves behind, however it ends *)

Ltac fit_outcomes Hself Hcfg H :=
  rewrite (fit_summary_correct _ _ _ _ _ _ _ Hself Hcfg) in H;
  unfold fit_summary in H; repeat case_match; simplify_eq.

Ltac heap_simpl :=
  unfold attr, log, store, instance in *; cbn [heap trace] in *.

(** X2.  [_is_fitted] is raised exactly by the calls of [fit] that
    return: after a call that returns it is True, after a call that
    raises, for whatever reason and however far it got, it is what it
    was before the call. *)
Theorem fit_marks_only_on_return w self d a data est kw r w' :
  instance w self d →
  configured d a →
  fit self data est kw w = (r, w') →
  attr w' self "_is_fitted" =
    match r with
    | inr _ => Some (PyBool true)
    | inl _ => attr w self "_is_fitted"
    end.
Proof.
  intros Hself Hcfg Hfit. fit_outcomes Hself Hcfg Hfit;
    heap_simpl; rewrite ?Hself; by simplify_map_eq.
Qed.

(** X3.  Whatever its outcome, [fit] writes no attribute of [self]
    other than [v], [_tree] and [_is_fitted] (the configuration,
    [treatment] and [outcome] stay as the constructor left them), and it
    leaves every other live object, the trees of earlier fits among
    them, exactly as it was. *)
Theorem fit_writes_only_fit_attributes w self d a data est kw r w' :
  instance w self d →
  configured d a →
  fit self data est kw w = (r, w') →
  (∀ name, name ≠ "v" → name ≠ "_tree" → name ≠ "_is_fitted" →
     attr w' self name = attr w self name) ∧
  (∀ o c, o ≠ self → heap w !! o = Some c → heap w' !! o = Some c).
Proof.
  intros Hself Hcfg Hfit.
  assert (Hfresh : ∀ o c, heap w !! o = Some c → fresh (dom (heap w)) ≠ o)
    by (intros o c; apply fresh_live).
  fit_outcomes Hself Hcfg Hfit; heap_simpl; rewrite ?Hself;
    (split; [intros name ? ? ? | intros o c Ho Hc; pose proof (Hfresh o c Hc)]);
    by simplify_map_eq.
Qed.

(** X4.  The calls [fit] issues are an initial part of one fixed
    sequence: [convert2array] on the estimator's covariate and outcome,
    [estimate] with [quantity=None] and the caller's keyword arguments,
    the [PolicyTree] constructor with the eleven stored values, and the
    new tree's [fit] on the estimator's result.  No call is made twice
    or out of order, and a call of [fit] that returns has made all
    four. *)
Theorem fit_calls_in_order w self d a data est kw r w' :
  instance w self d →
  configured d a →
  fit self data est kw w = (r, w') →
  ∃ evs,
    trace w' = trace w ++ evs ∧
    (∀ ce,
       estimate est data PyNone kw = inr ce →
       evs `prefix_of`
         [Call_convert2array data (covariate est) (outcome est);
          Call_estimate data PyNone kw;
          Call_PolicyTree (tree_kwargs a);
          Call_tree_fit (fresh (dom (heap w))) data (covariate est) ce]) ∧
    (∀ e, estimate est data PyNone kw = inl e →
       evs `prefix_of`
         [Call_convert2array data (covariate est) (outcome est);
          Call_estimate data PyNone kw]) ∧
    (∀ x, r = inr x → length evs = 4%nat).
Proof.
  intros Hself Hcfg Hfit.
  fit_outcomes Hself Hcfg Hfit; heap_simpl;
    (eexists; split; [first [reflexivity | symmetry; apply app_nil_r]|]);
    (split_and!; [intros ce' Hce' | intros e' He' | intros x' Hx' ]);
    simplify_eq; try done;
    try (by apply prefix_nil);
    try (by eexists [_]); try (by eexists [_; _]); try (by eexists [_; _; _]);
    try (by eexists []).
Qed.

(** *** Failures on the way *)

(** The statements of [fit] up to the call of the estimator, on inputs
    that pass the three checks. *)
Ltac fit_to_estimate Hself Hc Hf Hconv Hy :=
  unfold fit; rewrite Hc, Hf; do 3 fit_step;
  rewrite call_convert2array_run, Hconv; do 2 fit_step;
  cbn [np_shape ret]; rewrite Hy; cbn [unpack2 ret];
  fit_step; erewrite setattr_run by exact Hself;
  fit_step; cbn [Z.eqb Pos.eqb assert_ ret]; fit_step.

(** X5.  A keyword argument [quantity] given to [fit] collides with the
    [quantity=None] that [fit] itself passes to [estimate]: on inputs
    that pass the three checks the call ends in a [TypeError] before the
    estimator is entered, with [self.v] already overwritten.  ([data]
    is a parameter of [fit] and so never among its extra keyword
    arguments.) *)
Theorem fit_rejects_repeated_keyword w self d data est kw v y n :
  instance w self d →
  is_None (covariate est) = false →
  _is_fitted est = true →
  convert2array data (covariate est) (outcome est) = inr (v, PyArr y) →
  shape y = [n; 1] →
  kw !! "data" = None →
  is_Some (kw !! "quantity") →
  fit self data est kw w =
    (inl (Raise TypeError "got multiple values for keyword argument 'quantity'"),
     log (store w self (<["v" := v]> d))
         [Call_convert2array data (covariate est) (outcome est)]).
Proof.
  intros Hself Hc Hf Hconv Hy Hdata Hkw.
  fit_to_estimate Hself Hc Hf Hconv Hy. unfold call_estimate.
  rewrite Hdata. rewrite bool_decide_eq_false_2 by (by intros [? ?]).
  by rewrite bool_decide_eq_true_2.
Qed.

(** X6.  A failure before the statement [self.v = v] leaves the heap as
    it was: when [convert2array] raises (a missing column, say) [fit]
    raises that same exception, and when the converted outcome is not an
    array with exactly two axes (None, or a one-dimensional array) the
    access to [y.shape] or its unpacking raises; in both cases only the
    call of [convert2array] has happened. *)
Theorem fit_fails_before_assigning_v w self data est kw :
  is_None (covariate est) = false →
  _is_fitted est = true →
  match convert2array data (covariate est) (outcome est) with
  | inl _ => True
  | inr (_, y) => ∀ a, y = PyArr a → length (shape a) ≠ 2%nat
  end →
  ∃ e,
    fit self data est kw w =
      (inl e, log w [Call_convert2array data (covariate est) (outcome est)]) ∧
    (∀ e', convert2array data (covariate est) (outcome est) = inl e' → e = e').
Proof.
  intros Hc Hf Hy.
  destruct (convert2array data (covariate est) (outcome est))
    as [e|[v y]] eqn:Hconv.
  - exists e. split; [|by intros ? [= ->]].
    unfold fit. rewrite Hc, Hf. do 3 fit_step.
    by rewrite call_convert2array_run, Hconv.
  - destruct y as [| |?|?|?|?|?|a|?];
      try (destruct (fit_outcome_no_shape w self data est kw _ _ Hc Hf Hconv)
             as [e He]; [done|]; exists e; by split).
    eexists. split; [|done].
    eapply fit_outcome_bad_rank; try done. by apply Hy.
Qed.

(** X7.  An exception of the estimator passes through [fit] unchanged;
    by then [self.v] holds the new covariate matrix, and no tree has
    been constructed. *)
Theorem fit_propagates_estimate_error w self d data est kw v y n e :
  instance w self d →
  is_None (covariate est) = false →
  _is_fitted est = true →
  convert2array data (covariate est) (outcome est) = inr (v, PyArr y) →
  shape y = [n; 1] →
  kw !! "data" = None →
  kw !! "quantity" = None →
  estimate est data PyNone kw = inl e →
  fit self data est kw w =
    (inl e,
     log (store w self (<["v" := v]> d))
         [Call_convert2array data (covariate est) (outcome est);
          Call_estimate data PyNone kw]).
Proof.
  intros Hself Hc Hf Hconv Hy Hk1 Hk2 He.
  fit_to_estimate Hself Hc Hf Hconv Hy. unfold call_estimate.
  rewrite Hk1, Hk2. rewrite !bool_decide_eq_false_2 by (by intros [? ?]).
  rewrite run_bind. cbn [emit lift heap trace]. rewrite He.
  unfold log, store. cbn [heap trace]. by rewrite <- app_assoc.
Qed.

(** X13.  On a table without rows an effect array of three dimensions
    stops [fit]: the discarded [reshape(0, -1)] has no extent to infer,
    numpy raises [ValueError], and no tree is constructed.  (An effect
    array of any other rank is not reshaped and goes on to the tree.) *)
Theorem fit_3d_effects_without_rows_raise w self d data est kw v y ce :
  instance w self d →
  is_None (covariate est) = false →
  _is_fitted est = true →
  convert2array data (covariate est) (outcome est) = inr (v, PyArr y) →
  shape y = [0; 1] →
  kw !! "data" = None →
  kw !! "quantity" = None →
  estimate est data PyNone kw = inr (PyArr ce) →
  ndim ce = 3 →
  fit self data est kw w =
    (inl (Raise ValueError "cannot reshape array"),
     log (store w self (<["v" := v]> d))
         [Call_convert2array data (covariate est) (outcome est);
          Call_estimate data PyNone kw]).
Proof.
  intros Hself Hc Hf Hconv Hy Hk1 Hk2 He Hnd.
  fit_to_estimate Hself Hc Hf Hconv Hy. unfold call_estimate.
  rewrite Hk1, Hk2. rewrite !bool_decide_eq_false_2 by (by intros [? ?]).
  rewrite run_bind. cbn [emit lift heap trace]. rewrite He.
  fit_step. cbn [np_ndim ret]. rewrite Hnd. fit_step.
  cbn [Z.eqb Pos.eqb]. rewrite run_bind. cbn [np_reshape].
  rewrite run_bind. cbn [lift]. rewrite reshape_no_rows.
  unfold log, store. cbn [heap trace]. by rewrite <- app_assoc.
Qed.

(** X8.  The tree is assigned to [self._tree] before it is fitted: when
    the tree's [fit] raises, [fit] raises the same exception and the
    instance is left with [v] the new matrix and [_tree] the new tree,
    in the state its failed [fit] left it, while [_is_fitted] is
    unchanged. *)
Theorem fit_tree_fit_error_leaves_new_tree
    w self d a data est kw v y n ce t t' e :
  instance w self d →
  configured d a →
  is_None (covariate est) = false →
  _is_fitted est = true →
  convert2array data (covariate est) (outcome est) = inr (v, PyArr y) →
  shape y = [n; 1] →
  kw !! "data" = None →
  kw !! "quantity" = None →
  estimate est data PyNone kw = inr (PyArr ce) →
  (ndim ce = 3 → ∃ flat, reshape ce [n; -1] = inr flat) →
  PolicyTree (tree_kwargs a) = inr t →
  PolicyTree_fit t data (covariate est) (PyArr ce) = (inl e, t') →
  ∃ w',
    fit self data est kw w = (inl e, w') ∧
    fitted_state w' self = (Some v, Some t', attr w self "_is_fitted") ∧
    attr w' self "_tree" = Some (PyRef (fresh (dom (heap w)))) ∧
    heap w !! fresh (dom (heap w)) = None.
Proof.
  intros Hself Hcfg Hc Hf Hconv Hy Hk1 Hk2 He Hfl Ht Ht'.
  assert (Hfa : flatten_attempt ce n = inr tt).
  { unfold flatten_attempt. destruct (ndim ce =? 3) eqn:Hnd; [|done].
    apply Z.eqb_eq in Hnd. by destruct (Hfl Hnd) as [flat ->]. }
  assert (Hl : fresh (dom (heap w)) ≠ self) by (by apply (fresh_live _ _ _ Hself)).
  rewrite (fit_summary_correct _ _ _ _ _ _ _ Hself Hcfg).
  unfold fit_summary. rewrite Hc, Hf, Hconv, Hy, Hk1, Hk2, He, Hfa, Ht, Ht'.
  cbn [negb Z.eqb Pos.eqb].
  rewrite !bool_decide_eq_false_2 by (by intros [? ?]).
  eexists. split; [reflexivity|].
  split_and!.
  - unfold fitted_state, tree_of. heap_simpl. rewrite Hself.
    by simplify_map_eq.
  - heap_simpl. by simplify_map_eq.
  - apply not_elem_of_dom, is_fresh.
Qed.

(** X9.  The configuration is looked at by nobody before the tree
    constructor: when [PolicyTree] refuses the stored values, [fit]
    raises its exception only after the estimator has been queried and
    [self.v] overwritten; [_tree] and [_is_fitted] are unchanged and no
    object has been created. *)
Theorem fit_propagates_constructor_error w self d a data est kw v y n ce e :
  instance w self d →
  configured d a →
  is_None (covariate est) = false →
  _is_fitted est = true →
  convert2array data (covariate est) (outcome est) = inr (v, PyArr y) →
  shape y = [n; 1] →
  kw !! "data" = None →
  kw !! "quantity" = None →
  estimate est data PyNone kw = inr (PyArr ce) →
  (ndim ce = 3 → ∃ flat, reshape ce [n; -1] = inr flat) →
  PolicyTree (tree_kwargs a) = inl e →
  fit self data est kw w =
    (inl e,
     log (store w self (<["v" := v]> d))
         [Call_convert2array data (covariate est) (outcome est);
          Call_estimate data PyNone kw;
          Call_PolicyTree (tree_kwargs a)]).
Proof.
  intros Hself Hcfg Hc Hf Hconv Hy Hk1 Hk2 He Hfl Ht.
  assert (Hfa : flatten_attempt ce n = inr tt).
  { unfold flatten_attempt. destruct (ndim ce =? 3) eqn:Hnd; [|done].
    apply Z.eqb_eq in Hnd. by destruct (Hfl Hnd) as [flat ->]. }
  rewrite (fit_summary_correct _ _ _ _ _ _ _ Hself Hcfg).
  unfold fit_summary. rewrite Hc, Hf, Hconv, Hy, Hk1, Hk2, He, Hfa, Ht.
  cbn [negb Z.eqb Pos.eqb].
  by rewrite !bool_decide_eq_false_2 by (by intros [? ?]).
Qed.

(** X10.  A failed refit leaves a mixed state.  After a call of [fit]
    that returned, a second call that fails on the univariate assertion
    leaves the instance fit-marked, with [v] taken from the failed call
    and [_tree] still the tree of the first: [interpret] passes its
    "not fitted" assertion on it. *)
Theorem failed_refit_mixes_states
    w self d a data1 est1 kw1 r1 w1 data2 est2 kw2 v2 y2 n k :
  instance w self d →
  configured d a →
  fit self data1 est1 kw1 w = (inr r1, w1) →
  is_None (covariate est2) = false →
  _is_fitted est2 = true →
  convert2array data2 (covariate est2) (outcome est2) = inr (v2, PyArr y2) →
  shape y2 = [n; k] →
  k ≠ 1 →
  ∃ w2,
    fit self data2 est2 kw2 w1 = (inl (Raise AssertionError ""), w2) ∧
    fitted_state w2 self = (Some v2, tree_of w1 self, Some (PyBool true)) ∧
    is_Some (tree_of w1 self) ∧
    interpret self w2 =
      (inl (Raise TypeError "'NotImplementedType' object is not callable"), w2).
Proof.
  intros Hself Hcfg Hfit1 Hc Hf Hconv Hy Hk.
  destruct (fit_returns_world _ _ _ _ _ _ _ _ _ Hself Hcfg Hfit1)
    as (v1 & t1 & tr1 & -> & -> & _).
  assert (Hl : fresh (dom (heap w)) ≠ self) by (by apply (fresh_live _ _ _ Hself)).
  eexists. split.
  { eapply fit_outcome_not_single; try done. apply lookup_insert_eq. }
  split_and!.
  - unfold fitted_state, tree_of. heap_simpl. by simplify_map_eq.
  - unfold tree_of. heap_simpl. by simplify_map_eq.
  - eapply (interpret_run _ _ _ true).
    + unfold instance, log, store. cbn [heap]. apply lookup_insert_eq.
    + by simplify_map_eq.
Qed.

(** X15.  On an instance that is not fit-marked, a call of [fit] that
    raises, for whatever reason, leaves [interpret] failing with the
    "not fitted" assertion. *)
Theorem interpret_after_failed_fit_is_not_fitted w self d a data est kw e w' :
  instance w self d →
  configured d a →
  d !! "_is_fitted" = Some (PyBool false) →
  fit self data est kw w = (inl e, w') →
  interpret self w' = (inl (Raise AssertionError not_fitted_msg), w').
Proof.
  intros Hself Hcfg Hflag Hfit.
  fit_outcomes Hself Hcfg Hfit;
    (eapply (interpret_run _ _ _ false);
     [ heap_simpl; first [ exact Hself | apply lookup_insert_eq ]
     | by simplify_map_eq ]).
Qed.

(** X11.  The constructor sets neither [v] nor [_tree]: on a new
    instance reading either raises [AttributeError], and the fitted
    state is (unset, no tree, False).  Objects that existed before are
    untouched. *)
Theorem new_instance_has_no_fitted_attributes (a : init_args) (w : world) :
  ∃ self w',
    PolicyInterpreter a w = (inr self, w') ∧
    getattr self "v" w' = (inl (Raise AttributeError "v"), w') ∧
    getattr self "_tree" w' = (inl (Raise AttributeError "_tree"), w') ∧
    fitted_state w' self = (None, None, Some (PyBool false)) ∧
    (∀ o c, heap w !! o = Some c → heap w' !! o = Some c).
Proof.
  eexists _, _. split; [apply PolicyInterpreter_run|].
  split_and!.
  - unfold getattr, store. cbn [heap]. by rewrite lookup_insert_eq.
  - unfold getattr, store. cbn [heap]. by rewrite lookup_insert_eq.
  - unfold fitted_state, tree_of. by rewrite !attr_store.
  - intros o c Ho. unfold store. cbn [heap].
    rewrite lookup_insert_ne; [done|]. by apply (fresh_live _ _ c).
Qed.

(** X12.  The arguments of the constructor reach the tree unchanged: on
    an instance built by [PolicyInterpreter(a)], every call of [fit]
    that returns, also one that follows an earlier call of any outcome,
    has constructed its tree with the eleven values of [a]. *)
Theorem constructor_arguments_reach_the_tree
    a w0 self w1 data1 est1 kw1 r1 w2 data est kw r w3 :
  PolicyInterpreter a w0 = (inr self, w1) →
  fit self data1 est1 kw1 w1 = (r1, w2) →
  fit self data est kw w2 = (inr r, w3) →
  ∃ l ce,
    trace w3 = trace w2 ++
      [Call_convert2array data (covariate est) (outcome est);
       Call_estimate data PyNone kw;
       Call_PolicyTree (tree_kwargs a);
       Call_tree_fit l data (covariate est) ce].
Proof.
  intros Hnew Hfit1 Hfit2.
  rewrite PolicyInterpreter_run in Hnew. simplify_eq.
  assert (Hself1 : instance (store w0 (fresh (dom (heap w0))) (init_attrs a))
                     (fresh (dom (heap w0))) (init_attrs a))
    by apply lookup_insert_eq.
  destruct (fit_preserves_configuration _ _ _ _ _ _ _ _ _
              Hself1 (init_attrs_configured a) Hfit1) as (d2 & Hself2 & Hcfg2).
  destruct (fit_returns_inv _ _ _ _ _ _ _ _ _ Hself2 Hcfg2 Hfit2)
    as (v & y & n & ce & t & t' & Hc & Hf & Hconv & Hy & Hk1 & Hk2 & He
        & Hfl & Ht & Ht' & ->).
  rewrite (fit_returns _ _ _ _ _ _ _ _ _ _ _ _ _ Hself2 Hcfg2 Hc Hf Hconv Hy
             Hk1 Hk2 He Hfl Ht Ht') in Hfit2.
  simplify_eq. by eexists _, _.
Qed.

(** X14.  When the estimator keeps to its contract and returns effects
    of shape (n, k, m) for a table of n > 0 rows, the discarded reshape
    cannot raise: with the tree constructed and fitted, [fit] returns
    and the tree has been fitted on the three-dimensional array. *)
Theorem fit_3d_effects_with_rows_return
    w self d a data est kw v y n k m ce t t' :
  instance w self d →
  configured d a →
  is_None (covariate est) = false →
  _is_fitted est = true →
  convert2array data (covariate est) (outcome est) = inr (v, PyArr y) →
  shape y = [n; 1] →
  0 < n →
  kw !! "data" = None →
  kw !! "quantity" = None →
  estimate est data PyNone kw = inr (PyArr ce) →
  shape ce = [n; k; m] →
  PolicyTree (tree_kwargs a) = inr t →
  PolicyTree_fit t data (covariate est) (PyArr ce) = (inr tt, t') →
  ∃ w',
    fit self data est kw w = (inr self, w') ∧
    fitted_state w' self = (Some v, Some t', Some (PyBool true)) ∧
    last (trace w') =
      Some (Call_tree_fit (fresh (dom (heap w))) data (covariate est) (PyArr ce)).
Proof.
  intros Hself Hcfg Hc Hf Hconv Hy Hn Hk1 Hk2 He Hs Ht Ht'.
  assert (Hfa : flatten_attempt ce n = inr tt).
  { unfold flatten_attempt. by rewrite (reshape_rows ce n k m), Tauto.if_same. }
  assert (Hl : fresh (dom (heap w)) ≠ self) by (by apply (fresh_live _ _ _ Hself)).
  eexists. split; [by eapply fit_returns|]. split.
  - by apply fitted_state_after.
  - cbn [trace]. rewrite last_app. reflexivity.
Qed.

End Proofs.

(** ** The statements at concrete inputs

    A two-row table, the default configuration, and estimators that
    differ in their flag, their outcome columns and the rank of the
    effects they return. *)
Section Witnesses.
#[local] Existing Instance demo.

Lemma fit_raises_when_estimator_unfitted_witness :
  _is_fitted (demo_est false ["y"] effects2) = false ∧
  ∃ msg, fit self1 demo_data (demo_est false ["y"] effects2) ∅ w1
         = (inl (Raise AssertionError msg), w1).
Proof.
  split; [reflexivity|].
  apply fit_raises_when_estimator_unfitted. reflexivity.
Defined.

Lemma fit_precondition_failure_witness :
  ∃ e w',
    fit self1 demo_data (demo_est true ["y"; "z"] effects2) ∅ w1 = (inl e, w') ∧
    attr w' self1 "_is_fitted" = Some (PyBool false).
Proof.
  destruct (fit_precondition_failure w1 self1 (init_attrs default_args)
              demo_data (demo_est true ["y"; "z"] effects2) ∅)
    as (e & w' & Hfit & _ & _ & _ & _ & Hflag).
  - reflexivity.
  - right. right. exists (PyArr demo_v), (PyArr demo_yz).
    split; [reflexivity|].
    intros (a & n & Ha & Hs). injection Ha as <-. discriminate Hs.
  - exists e, w'. split; [exact Hfit|]. apply Hflag. reflexivity.
Defined.

Lemma fit_raises_when_outcome_not_univariate_witness :
  ∃ e w',
    fit self1 demo_data (demo_est true ["y"; "z"] effects2) ∅ w1 = (inl e, w').
Proof.
  apply (fit_raises_when_outcome_not_univariate w1 self1
           (init_attrs default_args) demo_data
           (demo_est true ["y"; "z"] effects2) ∅ (PyArr demo_v) demo_yz 2).
  - reflexivity.
  - reflexivity.
  - reflexivity.
  - reflexivity.
  - reflexivity.
  - lia.
Defined.

Lemma fit_assigns_v_before_univariate_check_witness :
  attr w1 self1 "v" = None ∧
  ∃ w',
    fit self1 demo_data (demo_est true ["y"; "z"] effects2) ∅ w1
      = (inl (Raise AssertionError ""), w') ∧
    attr w' self1 "v" = Some (PyArr demo_v) ∧
    attr w' self1 "_is_fitted" = Some (PyBool false).
Proof.
  split; [reflexivity|].
  destruct (fit_assigns_v_before_univariate_check w1 self1
              (init_attrs default_args) demo_data
              (demo_est true ["y"; "z"] effects2) ∅ (PyArr demo_v) demo_yz 2 2)
    as (w' & Hfit & _ & Hv & Hflag & _).
  - reflexivity.
  - reflexivity.
  - reflexivity.
  - reflexivity.
  - reflexivity.
  - lia.
  - exists w'. split; [exact Hfit|]. split; [exact Hv|].
    rewrite Hflag. reflexivity.
Defined.

Lemma fit_builds_fits_and_marks_witness :
  ∃ w',
    fit self1 demo_data (demo_est true ["y"] effects2) ∅ w1 = (inr self1, w') ∧
    fitted_state w' self1 =
      (Some (PyArr demo_v), Some (demo_tree1 effects2), Some (PyBool true)).
Proof.
  destruct (fit_builds_fits_and_marks w1 self1 (init_attrs default_args)
              default_args demo_data (demo_est true ["y"] effects2) ∅
              (PyArr demo_v) demo_y 2 effects2 demo_tree0 (demo_tree1 effects2))
    as (l & w' & Hfit & _ & _ & _ & _ & Hst).
  - reflexivity.
  - repeat split.
  - reflexivity.
  - reflexivity.
  - reflexivity.
  - reflexivity.
  - reflexivity.
  - reflexivity.
  - reflexivity.
  - intros Hnd. discriminate Hnd.
  - reflexivity.
  - reflexivity.
  - exists w'. split; [exact Hfit | exact Hst].
Defined.

Lemma fit_passes_3d_effect_unflattened_witness :
  ndim effects3 = 3 ∧
  reshape effects3 [2; -1] = inr effects2 ∧
  ∃ r w' l,
    fit self1 demo_data (demo_est true ["y"] effects3) ∅ w1 = (r, w') ∧
    trace w' = trace w1 ++
      [Call_convert2array demo_data (PyList [PyStr "x"; PyStr "z"])
         (PyList [PyStr "y"]);
       Call_estimate demo_data PyNone ∅;
       Call_PolicyTree (tree_kwargs default_args);
       Call_tree_fit l demo_data (PyList [PyStr "x"; PyStr "z"])
         (PyArr effects3)].
Proof.
  split; [reflexivity|]. split; [reflexivity|].
  destruct (fit_passes_3d_effect_unflattened w1 self1 (init_attrs default_args)
              default_args demo_data (demo_est true ["y"] effects3) ∅
              (PyArr demo_v) demo_y 2 effects3 demo_tree0)
    as (r & w' & Hfit & Hcase).
  - reflexivity.
  - repeat split.
  - reflexivity.
  - reflexivity.
  - reflexivity.
  - reflexivity.
  - reflexivity.
  - reflexivity.
  - reflexivity.
  - reflexivity.
  - reflexivity.
  - change (reshape effects3 [2; -1]) with (inr effects2 : res ndarray) in Hcase.
    destruct Hcase as (_ & _ & l & Htr).
    exists r, w', l. split; [exact Hfit | exact Htr].
Defined.

Lemma refit_replaces_fitted_state_witness :
  ∃ w',
    fit self1 demo_data (demo_est true ["y"] effects2) ∅ w1 = (inr self1, w') ∧
    fitted_state w3 self1 = fitted_state w' self1.
Proof.
  apply (refit_replaces_fitted_state w1 self1 (init_attrs default_args)
           default_args
           demo_data (demo_est true ["y"] effects3) ∅
           demo_data (demo_est true ["y"] effects2) ∅
           self1 w2 self1 w3).
  - reflexivity.
  - repeat split.
  - vm_compute. reflexivity.
  - vm_compute. reflexivity.
Defined.

Lemma interpret_after_fit_raises_TypeError_witness :
  interpret self1 w2
  = (inl (Raise TypeError "'NotImplementedType' object is not callable"), w2).
Proof.
  apply (interpret_after_fit_raises_TypeError w1 self1 (init_attrs default_args)
           default_args demo_data (demo_est true ["y"] effects3) ∅).
  - reflexivity.
  - repeat split.
  - vm_compute. reflexivity.
Defined.

(** The discarded reshape can still end the call: three effects do not
    fit two rows, and [fit] stops before it builds a tree. *)
Example fit_3d_reshape_raises :
  let '(r, w') := fit self1 demo_data (demo_est true ["y"] effects_odd) ∅ w1 in
  r = inl (Raise ValueError "cannot reshape array") ∧
  trace w' =
    [Call_convert2array demo_data (PyList [PyStr "x"; PyStr "z"])
       (PyList [PyStr "y"]);
     Call_estimate demo_data PyNone ∅] ∧
  attr w' self1 "_is_fitted" = Some (PyBool false).
Proof. vm_compute. repeat split. Qed.

End Witnesses.

(** ** Further statements at concrete inputs *)
Section MoreWitnesses.
#[local] Existing Instance demo.

Lemma fit_marks_only_on_return_witness :
  attr w1 self1 "_is_fitted" = Some (PyBool false) ∧
  attr w2 self1 "_is_fitted" = Some (PyBool true).
Proof.
  split; [reflexivity|].
  apply (fit_marks_only_on_return w1 self1 (init_attrs default_args)
           default_args demo_data (demo_est true ["y"] effects3) ∅
           (inr self1) w2).
  - reflexivity.
  - repeat split.
  - vm_compute. reflexivity.
Defined.

Lemma fit_writes_only_fit_attributes_witness :
  attr w2 self1 "treatment" = attr w1 self1 "treatment" ∧
  attr w2 self1 "criterion" = attr w1 self1 "criterion".
Proof.
  destruct (fit_writes_only_fit_attributes w1 self1 (init_attrs default_args)
              default_args demo_data (demo_est true ["y"] effects3) ∅
              (inr self1) w2) as [Hattr _].
  - reflexivity.
  - repeat split.
  - vm_compute. reflexivity.
  - split; apply Hattr; discriminate.
Defined.

Lemma fit_calls_in_order_witness :
  ∃ evs, trace w2 = trace w1 ++ evs ∧ length evs = 4%nat.
Proof.
  destruct (fit_calls_in_order w1 self1 (init_attrs default_args)
              default_args demo_data (demo_est true ["y"] effects3) ∅
              (inr self1) w2) as (evs & Htr & _ & _ & Hlen).
  - reflexivity.
  - repeat split.
  - vm_compute. reflexivity.
  - exists evs. split; [exact Htr|]. apply (Hlen self1). reflexivity.
Defined.

Lemma fit_rejects_repeated_keyword_witness :
  ∃ w',
    fit self1 demo_data (demo_est true ["y"] effects2) quantity_kw w1
      = (inl (Raise TypeError "got multiple values for keyword argument 'quantity'"),
         w') ∧
    attr w' self1 "v" = Some (PyArr demo_v) ∧
    trace w' =
      [Call_convert2array demo_data (PyList [PyStr "x"; PyStr "z"])
         (PyList [PyStr "y"])].
Proof.
  eexists. split.
  - apply (fit_rejects_repeated_keyword w1 self1 (init_attrs default_args)
             demo_data (demo_est true ["y"] effects2) quantity_kw
             (PyArr demo_v) demo_y 2).
    + reflexivity.
    + reflexivity.
    + reflexivity.
    + reflexivity.
    + reflexivity.
    + reflexivity.
    + exists (PyStr "ATE"). reflexivity.
  - split; reflexivity.
Defined.

Lemma fit_fails_before_assigning_v_witness :
  ∃ w',
    fit self1 demo_data (demo_est true ["missing"] effects2) ∅ w1
      = (inl (Raise KeyError "missing"), w') ∧
    heap w' = heap w1.
Proof.
  destruct (fit_fails_before_assigning_v w1 self1 demo_data
              (demo_est true ["missing"] effects2) ∅) as (e & Hfit & He).
  - reflexivity.
  - reflexivity.
  - exact I.
  - rewrite (He (Raise KeyError "missing")) in Hfit by reflexivity.
    eexists. split; [exact Hfit | reflexivity].
Defined.

Lemma fit_propagates_estimate_error_witness :
  ∃ w',
    fit self1 demo_data failing_est ∅ w1
      = (inl (Raise ValueError "no effect to estimate"), w') ∧
    attr w' self1 "v" = Some (PyArr demo_v).
Proof.
  eexists. split.
  - apply (fit_propagates_estimate_error w1 self1 (init_attrs default_args)
             demo_data failing_est ∅ (PyArr demo_v) demo_y 2).
    + reflexivity.
    + reflexivity.
    + reflexivity.
    + reflexivity.
    + reflexivity.
    + reflexivity.
    + reflexivity.
    + reflexivity.
  - reflexivity.
Defined.

Lemma fit_3d_effects_without_rows_raise_witness :
  ∃ w',
    fit self1 empty_data (demo_est true ["y"] effects_none) ∅ w1
      = (inl (Raise ValueError "cannot reshape array"), w').
Proof.
  eexists.
  apply (fit_3d_effects_without_rows_raise w1 self1 (init_attrs default_args)
           empty_data (demo_est true ["y"] effects_none) ∅
           (PyArr {| shape := [0; 2]; buffer := [] |})
           {| shape := [0; 1]; buffer := [] |} effects_none).
  - reflexivity.
  - reflexivity.
  - reflexivity.
  - reflexivity.
  - reflexivity.
  - reflexivity.
  - reflexivity.
  - reflexivity.
  - reflexivity.
Defined.

Lemma failed_refit_mixes_states_witness :
  ∃ w',
    fit self1 demo_data (demo_est true ["y"; "z"] effects2) ∅ w2
      = (inl (Raise AssertionError ""), w') ∧
    fitted_state w' self1 =
      (Some (PyArr demo_v), Some (demo_tree1 effects3), Some (PyBool true)).
Proof.
  destruct (failed_refit_mixes_states w1 self1 (init_attrs default_args)
              default_args demo_data (demo_est true ["y"] effects3) ∅ self1 w2
              demo_data (demo_est true ["y"; "z"] effects2) ∅
              (PyArr demo_v) demo_yz 2 2) as (w' & Hfit & Hst & _ & _).
  - reflexivity.
  - repeat split.
  - vm_compute. reflexivity.
  - reflexivity.
  - reflexivity.
  - reflexivity.
  - reflexivity.
  - lia.
  - exists w'. split; [exact Hfit | exact Hst].
Defined.

Lemma interpret_after_failed_fit_is_not_fitted_witness :
  interpret self1 (fit self1 demo_data failing_est ∅ w1).2
  = (inl (Raise AssertionError not_fitted_msg),
     (fit self1 demo_data failing_est ∅ w1).2).
Proof.
  apply (interpret_after_failed_fit_is_not_fitted w1 self1
           (init_attrs default_args) default_args demo_data failing_est ∅
           (Raise ValueError "no effect to estimate")).
  - reflexivity.
  - repeat split.
  - reflexivity.
  - vm_compute. reflexivity.
Defined.

Lemma constructor_arguments_reach_the_tree_witness :
  ∃ l ce,
    trace w3 = trace w2 ++
      [Call_convert2array demo_data (PyList [PyStr "x"; PyStr "z"])
         (PyList [PyStr "y"]);
       Call_estimate demo_data PyNone ∅;
       Call_PolicyTree (tree_kwargs default_args);
       Call_tree_fit l demo_data (PyList [PyStr "x"; PyStr "z"]) ce].
Proof.
  apply (constructor_arguments_reach_the_tree default_args w0 self1 w1
           demo_data (demo_est true ["y"] effects3) ∅ (inr self1) w2
           demo_data (demo_est true ["y"] effects2) ∅ self1 w3).
  - vm_compute. reflexivity.
  - vm_compute. reflexivity.
  - vm_compute. reflexivity.
Defined.

Lemma fit_3d_effects_with_rows_return_witness :
  ∃ w',
    fit self1 demo_data (demo_est true ["y"] effects3) ∅ w1 = (inr self1, w') ∧
    fitted_state w' self1 =
      (Some (PyArr demo_v), Some (demo_tree1 effects3), Some (PyBool true)).
Proof.
  destruct (fit_3d_effects_with_rows_return w1 self1 (init_attrs default_args)
              default_args demo_data (demo_est true ["y"] effects3) ∅
              (PyArr demo_v) demo_y 2 2 1 effects3 demo_tree0
              (demo_tree1 effects3)) as (w' & Hfit & Hst & _).
  - reflexivity.
  - repeat split.
  - reflexivity.
  - reflexivity.
  - reflexivity.
  - reflexivity.
  - lia.
  - reflexivity.
  - reflexivity.
  - reflexivity.
  - reflexivity.
  - reflexivity.
  - reflexivity.
  - exists w'. split; [exact Hfit | exact Hst].
Defined.

(** C2, as first stated, at a table without rows.  The three
    preconditions hold (a covariate, a fitted estimator, an outcome of
    shape (0, 1)) and every collaborator returns, yet [fit] does not
    return: the estimator's effects have shape (0, 2, 1), the discarded
    [reshape(0, -1)] raises, and the call ends in [ValueError] with no
    tree constructed and the instance not fit-marked. *)
Lemma fit_builds_fits_and_marks_counterexample :
  is_None (covariate (demo_est true ["y"] effects_none)) = false ∧
  _is_fitted (demo_est true ["y"] effects_none) = true ∧
  convert2array empty_data
    (covariate (demo_est true ["y"] effects_none))
    (outcome (demo_est true ["y"] effects_none))
  = inr (PyArr {| shape := [0; 2]; buffer := [] |},
         PyArr {| shape := [0; 1]; buffer := [] |}) ∧
  estimate (demo_est true ["y"] effects_none) empty_data PyNone ∅
  = inr (PyArr effects_none) ∧
  (∃ w',
     fit self1 empty_data (demo_est true ["y"] effects_none) ∅ w1
       = (inl (Raise ValueError "cannot reshape array"), w') ∧
     trace w' =
       [Call_convert2array empty_data (PyList [PyStr "x"; PyStr "z"])
          (PyList [PyStr "y"]);
        Call_estimate empty_data PyNone ∅] ∧
     attr w' self1 "_tree" = None ∧
     attr w' self1 "_is_fitted" = Some (PyBool false)) ∧
  ¬ (∃ w', fit self1 empty_data (demo_est true ["y"] effects_none) ∅ w1
             = (inr self1, w')).
Proof.
  assert (Hfit :
    fit self1 empty_data (demo_est true ["y"] effects_none) ∅ w1
    = (inl (Raise ValueError "cannot reshape array"),
       (fit self1 empty_data (demo_est true ["y"] effects_none) ∅ w1).2))
    by (vm_compute; reflexivity).
  split_and!; try reflexivity.
  - eexists. split; [exact Hfit|]. split_and!; reflexivity.
  - intros [w' Hw']. rewrite Hfit in Hw'. discriminate Hw'.
Qed.

End MoreWitnesses.

Section StrictWitnesses.
#[local] Existing Instance strict.

Lemma fit_tree_fit_error_leaves_new_tree_witness :
  ∃ w',
    fit sself1 demo_data (strict_est effects3) ∅ sw1
      = (inl (Raise ValueError "effect_array must have two dimensions"), w') ∧
    fitted_state w' sself1 =
      (Some (PyArr demo_v), Some demo_tree0, Some (PyBool false)).
Proof.
  destruct (fit_tree_fit_error_leaves_new_tree sw1 sself1
              (init_attrs default_args) default_args demo_data
              (strict_est effects3) ∅ (PyArr demo_v) demo_y 2 effects3
              demo_tree0 demo_tree0
              (Raise ValueError "effect_array must have two dimensions"))
    as (w' & Hfit & Hst & _).
  - reflexivity.
  - repeat split.
  - reflexivity.
  - reflexivity.
  - reflexivity.
  - reflexivity.
  - reflexivity.
  - reflexivity.
  - reflexivity.
  - intros _. exists effects2. reflexivity.
  - reflexivity.
  - reflexivity.
  - exists w'. split; [exact Hfit | exact Hst].
Defined.

Lemma fit_propagates_constructor_error_witness :
  ∃ w',
    fit sself1 demo_data (strict_est effects2) ∅ sw1_gini
      = (inl (Raise ValueError "unknown criterion"), w') ∧
    attr w' sself1 "v" = Some (PyArr demo_v) ∧
    attr w' sself1 "_tree" = None.
Proof.
  eexists. split.
  - apply (fit_propagates_constructor_error sw1_gini sself1
             (init_attrs gini_args) gini_args demo_data
             (strict_est effects2) ∅ (PyArr demo_v) demo_y 2 effects2).
    + reflexivity.
    + repeat split.
    + reflexivity.
    + reflexivity.
    + reflexivity.
    + reflexivity.
    + reflexivity.
    + reflexivity.
    + reflexivity.
    + intros Hnd. discriminate Hnd.
    + reflexivity.
  - split; reflexivity.
Defined.

End StrictWitnesses.
